(** * Package manager API types of [apis/pkg/v1]: accessors, revision lists
      and the persisted schema of a package revision

    The development embeds [apis/pkg/v1/interfaces.go] (the [Package],
    [PackageRevision] and [PackageRevisionList] interfaces with their
    implementations by [Provider], [Configuration], [ProviderRevision] and
    [ConfigurationRevision]) and the custom resource definition
    [cluster/crds/pkg.crossplane.io_functionrevisions.yaml].

    Conventions of the embedding:
    - a Go [int64] is a [Z]; no function below does arithmetic on one;
    - a pointer to a scalar ([*bool], [*string], [*int64], ...) is an
      [option], [None] standing for [nil];
    - a slice or map that is only ever assigned or returned as a whole is a
      [list] or a [gmap];
    - a method with a pointer receiver that assigns a field returns the
      updated struct; the store of struct cells is made explicit where the
      revision lists take addresses (see [GetRevisions]);
    - the conditions of a resource are a Go slice whose backing array lives in
      a memory of its own ([xpv1.mem]), since the runtime library's methods on
      it are the one place where this file hands a reference to foreign code. *)

From Stdlib Require Import ZArith Ascii.
From stdpp Require Import base numbers strings list gmap sorting.

Set Warnings "-register-all".

Abbreviation int64 := Z.
Abbreviation loc := nat.

(** ** Go values *)

Module go.

(** The range of a Go [int64]. *)
Definition is_int64 (z : Z) : Prop := (- 2 ^ 63 ≤ z < 2 ^ 63)%Z.

(** The same, as a test. *)
Definition int64b (z : Z) : bool := ((- 2 ^ 63 <=? z) && (z <? 2 ^ 63))%Z.

(** A slice header: address of the first element, length, capacity. *)
Record slice := mkSlice { ptr : loc; len : nat; cap : nat }.

(** The nil slice. *)
Definition nil : slice := mkSlice 0 0 0.

End go.

(** ** Types of the libraries the package imports *)

Module corev1.

(** [k8s.io/api/core/v1.LocalObjectReference]. *)
Record LocalObjectReference := mkLocalObjectReference { Name : string }.

(** [k8s.io/api/core/v1.PullPolicy] is a string type. *)
Definition PullPolicy := string.

End corev1.

Module metav1.

(** The part of [metav1.ObjectMeta] the package manager reads: the name of
    the object, its labels (see [LabelParentPackage]) and its creation
    timestamp (the AGE column). No accessor of this file writes it. *)
Record ObjectMeta := mkObjectMeta {
  Name : string;
  Labels : gmap string string;
  CreationTimestamp : string
}.

Definition zero : ObjectMeta := mkObjectMeta "" ∅ "".

End metav1.

Module rbacv1.

(** [k8s.io/api/rbac/v1.PolicyRule], with the fields the CRD lists under
    [status.permissionRequests]. *)
Record PolicyRule := mkPolicyRule {
  Verbs : list string;
  APIGroups : list string;
  Resources : list string;
  ResourceNames : list string;
  NonResourceURLs : list string
}.

End rbacv1.

Module xpv1.

(** [xpv1.TypedReference], as the CRD lists it under [status.objectRefs]. *)
Record TypedReference := mkTypedReference {
  APIVersion : string;
  Kind : string;
  Name : string;
  UID : string
}.

Definition ConditionType := string.

(** [xpv1.Condition], as the CRD lists it under [status.conditions]. *)
Record Condition := mkCondition {
  Type_ : ConditionType;
  Status : string;
  LastTransitionTime : string;
  Reason : string;
  Message : string
}.

(** [xpv1.ConditionedStatus]: the conditions of a resource, a Go slice. *)
Record ConditionedStatus := mkConditionedStatus { Conditions : go.slice }.

(** The memory the backing arrays of condition slices live in, one
    condition per address. *)
Abbreviation mem := (gmap loc Condition).

(** The two methods of [*xpv1.ConditionedStatus] the accessors delegate to.
    They belong to the crossplane-runtime library, not to this repository:
    they are taken as given, with no assumption on what they compute. Both
    see the memory of the backing arrays, and [SetConditions] may write to it
    as well as to the receiver. *)
Class Methods := {
  GetCondition : mem → ConditionedStatus → ConditionType → Condition;
  SetConditions : mem → ConditionedStatus → list Condition → mem * ConditionedStatus
}.

(** An implementation that keeps no conditions: every condition reads as
    Unknown and setting conditions changes nothing. The theorems below hold
    for every implementation; this one serves to run them on concrete
    inputs. *)
Definition no_conditions : Methods :=
  {| GetCondition _ _ ct := mkCondition ct "Unknown" "" "" "";
     SetConditions m cs _ := (m, cs) |}.

(** *** The methods as the library has them

    [apis/common/v1/condition.go] of crossplane-runtime is no part of this
    repository. Its methods are given here as that file has them, to run the
    accessors on conditions that are stored in memory. The theorems stated
    for every [Methods] do not use them. *)

(** The condition at an address; memory never written holds the zero
    value. *)
Definition load (m : mem) (a : loc) : Condition :=
  default (mkCondition "" "" "" "" "") (m !! a).

(** [Condition.Equal]: all fields but [LastTransitionTime] are the same. *)
Definition Equal (c other : Condition) : bool :=
  String.eqb (Type_ c) (Type_ other) && String.eqb (Status c) (Status other)
  && String.eqb (Reason c) (Reason other) && String.eqb (Message c) (Message other).

(** The loop of [GetCondition] from index [i] on, [n] elements being left:
    [for _, c := range s.Conditions { if c.Type == ct { return c } }]. *)
Fixpoint find_type (m : mem) (base : loc) (n i : nat) (ct : ConditionType)
    : option Condition :=
  match n with
  | 0 => None
  | S n =>
      let c := load m (base + i) in
      if String.eqb (Type_ c) ct then Some c else find_type m base n (S i) ct
  end.

(** The inner loop of [SetConditions] from index [i] on: an element of the
    type of [new] that is not [Equal] to it is overwritten where it is,
    [s.Conditions[i] = new]. The flag is the variable [exists]. *)
Fixpoint replace_type (new : Condition) (m : mem) (base : loc) (n i : nat) (found : bool)
    : mem * bool :=
  match n with
  | 0 => (m, found)
  | S n =>
      let existing := load m (base + i) in
      if negb (String.eqb (Type_ existing) (Type_ new)) then
        replace_type new m base n (S i) found
      else if Equal existing new then replace_type new m base n (S i) true
      else replace_type new (<[base + i := new]> m) base n (S i) true
  end.

(** An array of [n] zero values, past every address in use. *)
Definition alloc (n : nat) (m : mem) : loc * mem :=
  let base := S (map_fold (λ a _ top, a `max` top) 0 m) in
  (base, foldr (λ i m, <[base + i := mkCondition "" "" "" "" ""]> m) m (seq 0 n)).

(** [append(s, c)]: within the capacity the element is written after the
    last one, in the same array; beyond it the elements move to a new array.
    The capacity of a new array is the choice of the Go runtime, [grow] of
    the length needed, and at least that length. *)
Definition append (grow : nat → nat) (m : mem) (s : go.slice) (c : Condition)
    : mem * go.slice :=
  if go.len s <? go.cap s then
    (<[go.ptr s + go.len s := c]> m, go.mkSlice (go.ptr s) (S (go.len s)) (go.cap s))
  else
    let capacity := S (go.len s) `max` grow (S (go.len s)) in
    let '(base, m) := alloc capacity m in
    let m := foldl (λ m i, <[base + i := load m (go.ptr s + i)]> m) m (seq 0 (go.len s)) in
    (<[base + go.len s := c]> m, go.mkSlice base (S (go.len s)) capacity).

(** The body of the outer loop of [SetConditions], for one condition. *)
Definition set_condition (grow : nat → nat) (st : mem * go.slice) (new : Condition)
    : mem * go.slice :=
  let '(m, found) := replace_type new st.1 (go.ptr st.2) (go.len st.2) 0 false in
  if found then (m, st.2) else append grow m st.2 new.

(** [GetCondition] returns the condition for the given ConditionType if
    exists, otherwise a condition of that type with the status Unknown.
    [SetConditions] sets the supplied conditions, replacing any existing
    conditions of the same type. *)
Definition runtime (grow : nat → nat) : Methods :=
  {| GetCondition m cs ct :=
       default (mkCondition ct "Unknown" "" "" "")
         (find_type m (go.ptr (Conditions cs)) (go.len (Conditions cs)) 0 ct);
     SetConditions m cs c :=
       let st := foldl (set_condition grow) (m, Conditions cs) c in
       (st.1, mkConditionedStatus st.2) |}.

End xpv1.

(** ** Constants and named types of the package *)

(** LabelParentPackage is used as key for the owner package label we add to
    the revisions. *)
Definition LabelParentPackage : string := "pkg.crossplane.io/package".

(** LabelProviderFamily is used as key for the provider family label. *)
Definition LabelProviderFamily : string := "pkg.crossplane.io/provider-family".

(** RevisionActivationPolicy indicates how a package should activate its
    revisions. It is a string type. *)
Definition RevisionActivationPolicy := string.

(** AutomaticActivation indicates that package should automatically activate
    package revisions. *)
Definition AutomaticActivation : RevisionActivationPolicy := "Automatic".

(** ManualActivation indicates that a user will manually activate package
    revisions. *)
Definition ManualActivation : RevisionActivationPolicy := "Manual".

(** The desired state of a revision is a string type as well: the CRD gives
    [spec.desiredState] the type [string]. *)
Definition PackageRevisionDesiredState := string.

(** Modelled from the spec: the two named desired states, which are declared
    with the revision types and not in the accessor file. The spec has
    "[desiredState]: enum {Active, Inactive}", and the CRD documents the field
    as "Can be either Active or Inactive". *)
Definition PackageRevisionActive : PackageRevisionDesiredState := "Active".
Definition PackageRevisionInactive : PackageRevisionDesiredState := "Inactive".

(** [ControllerConfigReference] and [ControllerReference] are declared with
    the package and revision types; each holds a name, as the CRD has them
    ([spec.controllerConfigRef.name], [status.controllerRef.name]). *)
Record ControllerConfigReference := mkControllerConfigReference { ccrName : string }.
Record ControllerReference := mkControllerReference { crName : string }.

(** ** RefNames *)

(** The loop [for i, ref := range refs { stringRefs[i] = ref.Name }], from
    index [i] on. An assignment to a slice element is the list insert; the
    index is in range by construction, as [stringRefs] has the length of
    [refs]. *)
Fixpoint RefNames_loop (i : nat) (refs : list corev1.LocalObjectReference)
    (stringRefs : list string) : list string :=
  match refs with
  | [] => stringRefs
  | ref :: rest => RefNames_loop (S i) rest (<[i := corev1.Name ref]> stringRefs)
  end.

(** RefNames converts a slice of LocalObjectReferences to a slice of strings.
    [make([]string, len(refs))] is a slice of that many empty strings. *)
Definition RefNames (refs : list corev1.LocalObjectReference) : list string :=
  RefNames_loop 0 refs (replicate (length refs) "").

(** ** Packages

    The struct declarations of [Provider], [Configuration] and their specs
    and statuses are not in the accessor file. The records below have the
    fields the accessors name ([p.Spec.Package], [p.Status.CurrentRevision],
    ...), with the types the accessors return. [PackageSpec] holds the fields
    common to both kinds of package and is embedded in [ProviderSpec] and
    [ConfigurationSpec], which promotes its fields; only [ProviderSpec] has a
    [ControllerConfigReference], the field no accessor of a Configuration
    reads or writes. *)

Module PackageSpec.

(** The fields by name, with their types. *)
Inductive field :=
  | F_Package | F_RevisionActivationPolicy | F_RevisionHistoryLimit | F_PackagePullSecrets
  | F_PackagePullPolicy | F_IgnoreCrossplaneConstraints | F_SkipDependencyResolution
  | F_CommonLabels.
Definition field_type (f : field) : Type :=
  match f with
  | F_Package => string
  | F_RevisionActivationPolicy => option RevisionActivationPolicy
  | F_RevisionHistoryLimit => option int64
  | F_PackagePullSecrets => list corev1.LocalObjectReference
  | F_PackagePullPolicy => option corev1.PullPolicy
  | F_IgnoreCrossplaneConstraints => option bool
  | F_SkipDependencyResolution => option bool
  | F_CommonLabels => gmap string string
  end.

Record t := mk {
  Package : string;
  RevisionActivationPolicy : option RevisionActivationPolicy;
  RevisionHistoryLimit : option int64;
  PackagePullSecrets : list corev1.LocalObjectReference;
  PackagePullPolicy : option corev1.PullPolicy;
  IgnoreCrossplaneConstraints : option bool;
  SkipDependencyResolution : option bool;
  CommonLabels : gmap string string
}.

Definition set_Package v (s : t) : t :=
  let 'mk _ policy limit secrets pull ignore skip labels := s in
  mk v policy limit secrets pull ignore skip labels.
Definition set_RevisionActivationPolicy v (s : t) : t :=
  let 'mk pkg _ limit secrets pull ignore skip labels := s in
  mk pkg v limit secrets pull ignore skip labels.
Definition set_RevisionHistoryLimit v (s : t) : t :=
  let 'mk pkg policy _ secrets pull ignore skip labels := s in
  mk pkg policy v secrets pull ignore skip labels.
Definition set_PackagePullSecrets v (s : t) : t :=
  let 'mk pkg policy limit _ pull ignore skip labels := s in
  mk pkg policy limit v pull ignore skip labels.
Definition set_PackagePullPolicy v (s : t) : t :=
  let 'mk pkg policy limit secrets _ ignore skip labels := s in
  mk pkg policy limit secrets v ignore skip labels.
Definition set_IgnoreCrossplaneConstraints v (s : t) : t :=
  let 'mk pkg policy limit secrets pull _ skip labels := s in
  mk pkg policy limit secrets pull v skip labels.
Definition set_SkipDependencyResolution v (s : t) : t :=
  let 'mk pkg policy limit secrets pull ignore _ labels := s in
  mk pkg policy limit secrets pull ignore v labels.
Definition set_CommonLabels v (s : t) : t :=
  let 'mk pkg policy limit secrets pull ignore skip _ := s in
  mk pkg policy limit secrets pull ignore skip v.

(** The value of a field. *)
Definition get (f : field) (s : t) : field_type f :=
  match f with
  | F_Package => Package s
  | F_RevisionActivationPolicy => RevisionActivationPolicy s
  | F_RevisionHistoryLimit => RevisionHistoryLimit s
  | F_PackagePullSecrets => PackagePullSecrets s
  | F_PackagePullPolicy => PackagePullPolicy s
  | F_IgnoreCrossplaneConstraints => IgnoreCrossplaneConstraints s
  | F_SkipDependencyResolution => SkipDependencyResolution s
  | F_CommonLabels => CommonLabels s
  end.

Definition zero : t := mk "" None None [] None None None ∅.

End PackageSpec.

Module PackageStatus.

(** The fields by name, with their types. *)
Inductive field :=
  | F_ConditionedStatus | F_CurrentRevision | F_CurrentIdentifier.
Definition field_type (f : field) : Type :=
  match f with
  | F_ConditionedStatus => xpv1.ConditionedStatus
  | F_CurrentRevision => string
  | F_CurrentIdentifier => string
  end.

Record t := mk {
  ConditionedStatus : xpv1.ConditionedStatus;
  CurrentRevision : string;
  CurrentIdentifier : string
}.

Definition set_ConditionedStatus v (s : t) : t :=
  let 'mk _ rev ident := s in
  mk v rev ident.
Definition set_CurrentRevision v (s : t) : t :=
  let 'mk conds _ ident := s in
  mk conds v ident.
Definition set_CurrentIdentifier v (s : t) : t :=
  let 'mk conds rev _ := s in
  mk conds rev v.

(** The value of a field. *)
Definition get (f : field) (s : t) : field_type f :=
  match f with
  | F_ConditionedStatus => ConditionedStatus s
  | F_CurrentRevision => CurrentRevision s
  | F_CurrentIdentifier => CurrentIdentifier s
  end.

Definition zero : t := mk (xpv1.mkConditionedStatus go.nil) "" "".

End PackageStatus.

Module ProviderSpec.

Record t := mk {
  PackageSpec : PackageSpec.t;
  ControllerConfigReference : option ControllerConfigReference
}.

Definition set_PackageSpec v (s : t) : t :=
  let 'mk _ ccr := s in mk v ccr.
Definition set_ControllerConfigReference v (s : t) : t :=
  let 'mk spec _ := s in mk spec v.

Definition zero : t := mk PackageSpec.zero None.

End ProviderSpec.

Module ConfigurationSpec.

Record t := mk { PackageSpec : PackageSpec.t }.

Definition set_PackageSpec v (s : t) : t :=
  let 'mk _ := s in mk v.

Definition zero : t := mk PackageSpec.zero.

End ConfigurationSpec.

(** A call of a setter of the [Package] interface, with its arguments. *)
Module PackageSetter.

Inductive t :=
  | SetConditions (c : list xpv1.Condition)
  | SetSource (s : string)
  | SetActivationPolicy (a : option RevisionActivationPolicy)
  | SetPackagePullSecrets (s : list corev1.LocalObjectReference)
  | SetPackagePullPolicy (i : option corev1.PullPolicy)
  | SetRevisionHistoryLimit (l : option int64)
  | SetIgnoreCrossplaneConstraints (b : option bool)
  | SetControllerConfigRef (r : option ControllerConfigReference)
  | SetCurrentRevision (r : string)
  | SetCurrentIdentifier (r : string)
  | SetSkipDependencyResolution (b : option bool)
  | SetCommonLabels (l : gmap string string).

End PackageSetter.

Module Provider.

Record t := mk {
  ObjectMeta : metav1.ObjectMeta;
  Spec : ProviderSpec.t;
  Status : PackageStatus.t
}.

(** The zero value, [Provider{}]. *)
Definition zero : t := mk metav1.zero ProviderSpec.zero PackageStatus.zero.

Definition set_Spec (v : ProviderSpec.t) (p : t) : t :=
  let 'mk meta _ status := p in mk meta v status.
Definition set_Status (v : PackageStatus.t) (p : t) : t :=
  let 'mk meta spec _ := p in mk meta spec v.

(** [p.Spec.F], for a field [F] of the embedded [PackageSpec]. *)
Definition spec (p : t) : PackageSpec.t := ProviderSpec.PackageSpec (Spec p).

(** [p.Spec.F = v], for a field [F] of the embedded [PackageSpec]: [f] is
    the assignment to [F]. *)
Definition assign_spec (f : PackageSpec.t → PackageSpec.t) (p : t) : t :=
  set_Spec (ProviderSpec.set_PackageSpec (f (spec p)) (Spec p)) p.

(** [p.Status.F = v]. *)
Definition assign_status (f : PackageStatus.t → PackageStatus.t) (p : t) : t :=
  set_Status (f (Status p)) p.

Section conditioned.
Context `{!xpv1.Methods}.

(** GetCondition of this Provider. *)
Definition GetCondition (m : xpv1.mem) (p : t) (ct : xpv1.ConditionType) : xpv1.Condition :=
  xpv1.GetCondition m (PackageStatus.ConditionedStatus (Status p)) ct.

(** SetConditions of this Provider. The library's method receives the
    address of the embedded [ConditionedStatus]: what it leaves there is
    stored back in the status. *)
Definition SetConditions (m : xpv1.mem) (p : t) (c : list xpv1.Condition) : xpv1.mem * t :=
  let '(m', cs) := xpv1.SetConditions m (PackageStatus.ConditionedStatus (Status p)) c in
  (m', assign_status (PackageStatus.set_ConditionedStatus cs) p).

End conditioned.

(** GetSource of this Provider. *)
Definition GetSource (p : t) : string := PackageSpec.Package (spec p).

(** SetSource of this Provider. *)
Definition SetSource (p : t) (s : string) : t := assign_spec (PackageSpec.set_Package s) p.

(** GetActivationPolicy of this Provider. *)
Definition GetActivationPolicy (p : t) : option RevisionActivationPolicy :=
  PackageSpec.RevisionActivationPolicy (spec p).

(** SetActivationPolicy of this Provider. *)
Definition SetActivationPolicy (p : t) (a : option RevisionActivationPolicy) : t :=
  assign_spec (PackageSpec.set_RevisionActivationPolicy a) p.

(** GetPackagePullSecrets of this Provider. *)
Definition GetPackagePullSecrets (p : t) : list corev1.LocalObjectReference :=
  PackageSpec.PackagePullSecrets (spec p).

(** SetPackagePullSecrets of this Provider. *)
Definition SetPackagePullSecrets (p : t) (s : list corev1.LocalObjectReference) : t :=
  assign_spec (PackageSpec.set_PackagePullSecrets s) p.

(** GetPackagePullPolicy of this Provider. *)
Definition GetPackagePullPolicy (p : t) : option corev1.PullPolicy :=
  PackageSpec.PackagePullPolicy (spec p).

(** SetPackagePullPolicy of this Provider. *)
Definition SetPackagePullPolicy (p : t) (i : option corev1.PullPolicy) : t :=
  assign_spec (PackageSpec.set_PackagePullPolicy i) p.

(** GetRevisionHistoryLimit of this Provider. *)
Definition GetRevisionHistoryLimit (p : t) : option int64 :=
  PackageSpec.RevisionHistoryLimit (spec p).

(** SetRevisionHistoryLimit of this Provider. *)
Definition SetRevisionHistoryLimit (p : t) (l : option int64) : t :=
  assign_spec (PackageSpec.set_RevisionHistoryLimit l) p.

(** GetIgnoreCrossplaneConstraints of this Provider. *)
Definition GetIgnoreCrossplaneConstraints (p : t) : option bool :=
  PackageSpec.IgnoreCrossplaneConstraints (spec p).

(** SetIgnoreCrossplaneConstraints of this Provider. *)
Definition SetIgnoreCrossplaneConstraints (p : t) (b : option bool) : t :=
  assign_spec (PackageSpec.set_IgnoreCrossplaneConstraints b) p.

(** GetControllerConfigRef of this Provider. *)
Definition GetControllerConfigRef (p : t) : option ControllerConfigReference :=
  ProviderSpec.ControllerConfigReference (Spec p).

(** SetControllerConfigRef of this Provider. *)
Definition SetControllerConfigRef (p : t) (r : option ControllerConfigReference) : t :=
  set_Spec (ProviderSpec.set_ControllerConfigReference r (Spec p)) p.

(** GetCurrentRevision of this Provider. *)
Definition GetCurrentRevision (p : t) : string := PackageStatus.CurrentRevision (Status p).

(** SetCurrentRevision of this Provider. *)
Definition SetCurrentRevision (p : t) (s : string) : t :=
  assign_status (PackageStatus.set_CurrentRevision s) p.

(** GetSkipDependencyResolution of this Provider. *)
Definition GetSkipDependencyResolution (p : t) : option bool :=
  PackageSpec.SkipDependencyResolution (spec p).

(** SetSkipDependencyResolution of this Provider. *)
Definition SetSkipDependencyResolution (p : t) (b : option bool) : t :=
  assign_spec (PackageSpec.set_SkipDependencyResolution b) p.

(** GetCurrentIdentifier of this Provider. *)
Definition GetCurrentIdentifier (p : t) : string := PackageStatus.CurrentIdentifier (Status p).

(** SetCurrentIdentifier of this Provider. *)
Definition SetCurrentIdentifier (p : t) (s : string) : t :=
  assign_status (PackageStatus.set_CurrentIdentifier s) p.

(** GetCommonLabels of this Provider. *)
Definition GetCommonLabels (p : t) : gmap string string := PackageSpec.CommonLabels (spec p).

(** SetCommonLabels of this Provider. *)
Definition SetCommonLabels (p : t) (l : gmap string string) : t :=
  assign_spec (PackageSpec.set_CommonLabels l) p.

(** The fields of a Provider: its metadata, the fields of its spec and
    those of its status. *)
Inductive field :=
  | F_ObjectMeta | F_Spec (f : PackageSpec.field) | F_ControllerConfigReference | F_Status (f : PackageStatus.field).
Definition field_type (f : field) : Type :=
  match f with
  | F_ObjectMeta => metav1.ObjectMeta
  | F_Spec f => PackageSpec.field_type f
  | F_ControllerConfigReference => option ControllerConfigReference
  | F_Status f => PackageStatus.field_type f
  end.
Definition get (f : field) (p : t) : field_type f :=
  match f with
  | F_ObjectMeta => ObjectMeta p
  | F_Spec f => PackageSpec.get f (spec p)
  | F_ControllerConfigReference => ProviderSpec.ControllerConfigReference (Spec p)
  | F_Status f => PackageStatus.get f (Status p)
  end.

(** The fields a setter names. *)
Definition writes (c : PackageSetter.t) : list field :=
  match c with
  | PackageSetter.SetConditions _ => [F_Status PackageStatus.F_ConditionedStatus]
  | PackageSetter.SetSource _ => [F_Spec PackageSpec.F_Package]
  | PackageSetter.SetActivationPolicy _ => [F_Spec PackageSpec.F_RevisionActivationPolicy]
  | PackageSetter.SetPackagePullSecrets _ => [F_Spec PackageSpec.F_PackagePullSecrets]
  | PackageSetter.SetPackagePullPolicy _ => [F_Spec PackageSpec.F_PackagePullPolicy]
  | PackageSetter.SetRevisionHistoryLimit _ => [F_Spec PackageSpec.F_RevisionHistoryLimit]
  | PackageSetter.SetIgnoreCrossplaneConstraints _ =>
      [F_Spec PackageSpec.F_IgnoreCrossplaneConstraints]
  | PackageSetter.SetControllerConfigRef _ => [F_ControllerConfigReference]
  | PackageSetter.SetCurrentRevision _ => [F_Status PackageStatus.F_CurrentRevision]
  | PackageSetter.SetCurrentIdentifier _ => [F_Status PackageStatus.F_CurrentIdentifier]
  | PackageSetter.SetSkipDependencyResolution _ => [F_Spec PackageSpec.F_SkipDependencyResolution]
  | PackageSetter.SetCommonLabels _ => [F_Spec PackageSpec.F_CommonLabels]
  end.

Section call.
Context `{!xpv1.Methods}.

(** The call of a setter on a Provider: the receiver and the conditions
    memory after it. *)
Definition call (c : PackageSetter.t) (m : xpv1.mem) (p : t) : xpv1.mem * t :=
  match c with
  | PackageSetter.SetConditions cs => SetConditions m p cs
  | PackageSetter.SetSource s => (m, SetSource p s)
  | PackageSetter.SetActivationPolicy a => (m, SetActivationPolicy p a)
  | PackageSetter.SetPackagePullSecrets s => (m, SetPackagePullSecrets p s)
  | PackageSetter.SetPackagePullPolicy i => (m, SetPackagePullPolicy p i)
  | PackageSetter.SetRevisionHistoryLimit l => (m, SetRevisionHistoryLimit p l)
  | PackageSetter.SetIgnoreCrossplaneConstraints b => (m, SetIgnoreCrossplaneConstraints p b)
  | PackageSetter.SetControllerConfigRef r => (m, SetControllerConfigRef p r)
  | PackageSetter.SetCurrentRevision r => (m, SetCurrentRevision p r)
  | PackageSetter.SetCurrentIdentifier r => (m, SetCurrentIdentifier p r)
  | PackageSetter.SetSkipDependencyResolution b => (m, SetSkipDependencyResolution p b)
  | PackageSetter.SetCommonLabels l => (m, SetCommonLabels p l)
  end.

End call.

End Provider.

Module Configuration.

Record t := mk {
  ObjectMeta : metav1.ObjectMeta;
  Spec : ConfigurationSpec.t;
  Status : PackageStatus.t
}.

(** The zero value, [Configuration{}]. *)
Definition zero : t := mk metav1.zero ConfigurationSpec.zero PackageStatus.zero.

Definition set_Spec (v : ConfigurationSpec.t) (p : t) : t :=
  let 'mk meta _ status := p in mk meta v status.
Definition set_Status (v : PackageStatus.t) (p : t) : t :=
  let 'mk meta spec _ := p in mk meta spec v.

(** [p.Spec.F], for a field [F] of the embedded [PackageSpec]. *)
Definition spec (p : t) : PackageSpec.t := ConfigurationSpec.PackageSpec (Spec p).

(** [p.Spec.F = v], for a field [F] of the embedded [PackageSpec]: [f] is
    the assignment to [F]. *)
Definition assign_spec (f : PackageSpec.t → PackageSpec.t) (p : t) : t :=
  set_Spec (ConfigurationSpec.set_PackageSpec (f (spec p)) (Spec p)) p.

(** [p.Status.F = v]. *)
Definition assign_status (f : PackageStatus.t → PackageStatus.t) (p : t) : t :=
  set_Status (f (Status p)) p.

Section conditioned.
Context `{!xpv1.Methods}.

(** GetCondition of this Configuration. *)
Definition GetCondition (m : xpv1.mem) (p : t) (ct : xpv1.ConditionType) : xpv1.Condition :=
  xpv1.GetCondition m (PackageStatus.ConditionedStatus (Status p)) ct.

(** SetConditions of this Configuration. The library's method receives the
    address of the embedded [ConditionedStatus]: what it leaves there is
    stored back in the status. *)
Definition SetConditions (m : xpv1.mem) (p : t) (c : list xpv1.Condition) : xpv1.mem * t :=
  let '(m', cs) := xpv1.SetConditions m (PackageStatus.ConditionedStatus (Status p)) c in
  (m', assign_status (PackageStatus.set_ConditionedStatus cs) p).

End conditioned.

(** GetSource of this Configuration. *)
Definition GetSource (p : t) : string := PackageSpec.Package (spec p).

(** SetSource of this Configuration. *)
Definition SetSource (p : t) (s : string) : t := assign_spec (PackageSpec.set_Package s) p.

(** GetActivationPolicy of this Configuration. *)
Definition GetActivationPolicy (p : t) : option RevisionActivationPolicy :=
  PackageSpec.RevisionActivationPolicy (spec p).

(** SetActivationPolicy of this Configuration. *)
Definition SetActivationPolicy (p : t) (a : option RevisionActivationPolicy) : t :=
  assign_spec (PackageSpec.set_RevisionActivationPolicy a) p.

(** GetPackagePullSecrets of this Configuration. *)
Definition GetPackagePullSecrets (p : t) : list corev1.LocalObjectReference :=
  PackageSpec.PackagePullSecrets (spec p).

(** SetPackagePullSecrets of this Configuration. *)
Definition SetPackagePullSecrets (p : t) (s : list corev1.LocalObjectReference) : t :=
  assign_spec (PackageSpec.set_PackagePullSecrets s) p.

(** GetPackagePullPolicy of this Configuration. *)
Definition GetPackagePullPolicy (p : t) : option corev1.PullPolicy :=
  PackageSpec.PackagePullPolicy (spec p).

(** SetPackagePullPolicy of this Configuration. *)
Definition SetPackagePullPolicy (p : t) (i : option corev1.PullPolicy) : t :=
  assign_spec (PackageSpec.set_PackagePullPolicy i) p.

(** GetRevisionHistoryLimit of this Configuration. *)
Definition GetRevisionHistoryLimit (p : t) : option int64 :=
  PackageSpec.RevisionHistoryLimit (spec p).

(** SetRevisionHistoryLimit of this Configuration. *)
Definition SetRevisionHistoryLimit (p : t) (l : option int64) : t :=
  assign_spec (PackageSpec.set_RevisionHistoryLimit l) p.

(** GetIgnoreCrossplaneConstraints of this Configuration. *)
Definition GetIgnoreCrossplaneConstraints (p : t) : option bool :=
  PackageSpec.IgnoreCrossplaneConstraints (spec p).

(** SetIgnoreCrossplaneConstraints of this Configuration. *)
Definition SetIgnoreCrossplaneConstraints (p : t) (b : option bool) : t :=
  assign_spec (PackageSpec.set_IgnoreCrossplaneConstraints b) p.

(** GetControllerConfigRef of this Configuration: [return nil]. *)
Definition GetControllerConfigRef (p : t) : option ControllerConfigReference := None.

(** SetControllerConfigRef of this Configuration: the body is empty. *)
Definition SetControllerConfigRef (p : t) (_ : option ControllerConfigReference) : t := p.

(** GetCurrentRevision of this Configuration. *)
Definition GetCurrentRevision (p : t) : string := PackageStatus.CurrentRevision (Status p).

(** SetCurrentRevision of this Configuration. *)
Definition SetCurrentRevision (p : t) (s : string) : t :=
  assign_status (PackageStatus.set_CurrentRevision s) p.

(** GetSkipDependencyResolution of this Configuration. *)
Definition GetSkipDependencyResolution (p : t) : option bool :=
  PackageSpec.SkipDependencyResolution (spec p).

(** SetSkipDependencyResolution of this Configuration. *)
Definition SetSkipDependencyResolution (p : t) (b : option bool) : t :=
  assign_spec (PackageSpec.set_SkipDependencyResolution b) p.

(** GetCurrentIdentifier of this Configuration. *)
Definition GetCurrentIdentifier (p : t) : string := PackageStatus.CurrentIdentifier (Status p).

(** SetCurrentIdentifier of this Configuration. *)
Definition SetCurrentIdentifier (p : t) (s : string) : t :=
  assign_status (PackageStatus.set_CurrentIdentifier s) p.

(** GetCommonLabels of this Configuration. *)
Definition GetCommonLabels (p : t) : gmap string string := PackageSpec.CommonLabels (spec p).

(** SetCommonLabels of this Configuration. *)
Definition SetCommonLabels (p : t) (l : gmap string string) : t :=
  assign_spec (PackageSpec.set_CommonLabels l) p.

(** The fields of a Configuration: its metadata, the fields of its spec and
    those of its status. *)
Inductive field :=
  | F_ObjectMeta | F_Spec (f : PackageSpec.field) | F_Status (f : PackageStatus.field).
Definition field_type (f : field) : Type :=
  match f with
  | F_ObjectMeta => metav1.ObjectMeta
  | F_Spec f => PackageSpec.field_type f
  | F_Status f => PackageStatus.field_type f
  end.
Definition get (f : field) (p : t) : field_type f :=
  match f with
  | F_ObjectMeta => ObjectMeta p
  | F_Spec f => PackageSpec.get f (spec p)
  | F_Status f => PackageStatus.get f (Status p)
  end.

(** The fields a setter names. *)
Definition writes (c : PackageSetter.t) : list field :=
  match c with
  | PackageSetter.SetConditions _ => [F_Status PackageStatus.F_ConditionedStatus]
  | PackageSetter.SetSource _ => [F_Spec PackageSpec.F_Package]
  | PackageSetter.SetActivationPolicy _ => [F_Spec PackageSpec.F_RevisionActivationPolicy]
  | PackageSetter.SetPackagePullSecrets _ => [F_Spec PackageSpec.F_PackagePullSecrets]
  | PackageSetter.SetPackagePullPolicy _ => [F_Spec PackageSpec.F_PackagePullPolicy]
  | PackageSetter.SetRevisionHistoryLimit _ => [F_Spec PackageSpec.F_RevisionHistoryLimit]
  | PackageSetter.SetIgnoreCrossplaneConstraints _ =>
      [F_Spec PackageSpec.F_IgnoreCrossplaneConstraints]
  | PackageSetter.SetControllerConfigRef _ => []
  | PackageSetter.SetCurrentRevision _ => [F_Status PackageStatus.F_CurrentRevision]
  | PackageSetter.SetCurrentIdentifier _ => [F_Status PackageStatus.F_CurrentIdentifier]
  | PackageSetter.SetSkipDependencyResolution _ => [F_Spec PackageSpec.F_SkipDependencyResolution]
  | PackageSetter.SetCommonLabels _ => [F_Spec PackageSpec.F_CommonLabels]
  end.

Section call.
Context `{!xpv1.Methods}.

(** The call of a setter on a Configuration: the receiver and the conditions
    memory after it. *)
Definition call (c : PackageSetter.t) (m : xpv1.mem) (p : t) : xpv1.mem * t :=
  match c with
  | PackageSetter.SetConditions cs => SetConditions m p cs
  | PackageSetter.SetSource s => (m, SetSource p s)
  | PackageSetter.SetActivationPolicy a => (m, SetActivationPolicy p a)
  | PackageSetter.SetPackagePullSecrets s => (m, SetPackagePullSecrets p s)
  | PackageSetter.SetPackagePullPolicy i => (m, SetPackagePullPolicy p i)
  | PackageSetter.SetRevisionHistoryLimit l => (m, SetRevisionHistoryLimit p l)
  | PackageSetter.SetIgnoreCrossplaneConstraints b => (m, SetIgnoreCrossplaneConstraints p b)
  | PackageSetter.SetControllerConfigRef r => (m, SetControllerConfigRef p r)
  | PackageSetter.SetCurrentRevision r => (m, SetCurrentRevision p r)
  | PackageSetter.SetCurrentIdentifier r => (m, SetCurrentIdentifier p r)
  | PackageSetter.SetSkipDependencyResolution b => (m, SetSkipDependencyResolution p b)
  | PackageSetter.SetCommonLabels l => (m, SetCommonLabels p l)
  end.

End call.

End Configuration.
(** ** Package revisions

    [PackageRevisionSpec] and [PackageRevisionStatus] are the spec and status
    the CRD describes (its descriptions name them); both kinds of revision
    use them. The fields are those the accessors name, which are the
    properties the CRD lists. *)

Module PackageRevisionSpec.

(** The fields by name, with their types. *)
Inductive field :=
  | F_ControllerConfigReference | F_DesiredState | F_Package | F_PackagePullSecrets
  | F_PackagePullPolicy | F_Revision | F_IgnoreCrossplaneConstraints | F_SkipDependencyResolution
  | F_WebhookTLSSecretName | F_ESSTLSSecretName | F_TLSServerSecretName | F_TLSClientSecretName
  | F_CommonLabels.
Definition field_type (f : field) : Type :=
  match f with
  | F_ControllerConfigReference => option ControllerConfigReference
  | F_DesiredState => PackageRevisionDesiredState
  | F_Package => string
  | F_PackagePullSecrets => list corev1.LocalObjectReference
  | F_PackagePullPolicy => option corev1.PullPolicy
  | F_Revision => int64
  | F_IgnoreCrossplaneConstraints => option bool
  | F_SkipDependencyResolution => option bool
  | F_WebhookTLSSecretName => option string
  | F_ESSTLSSecretName => option string
  | F_TLSServerSecretName => option string
  | F_TLSClientSecretName => option string
  | F_CommonLabels => gmap string string
  end.

Record t := mk {
  ControllerConfigReference : option ControllerConfigReference;
  DesiredState : PackageRevisionDesiredState;
  Package : string;
  PackagePullSecrets : list corev1.LocalObjectReference;
  PackagePullPolicy : option corev1.PullPolicy;
  Revision : int64;
  IgnoreCrossplaneConstraints : option bool;
  SkipDependencyResolution : option bool;
  WebhookTLSSecretName : option string;
  ESSTLSSecretName : option string;
  TLSServerSecretName : option string;
  TLSClientSecretName : option string;
  CommonLabels : gmap string string
}.

Definition set_ControllerConfigReference v (s : t) : t :=
  let 'mk _ state pkg secrets pull rev ignore skip webhook ess server client labels := s in
  mk v state pkg secrets pull rev ignore skip webhook ess server client labels.
Definition set_DesiredState v (s : t) : t :=
  let 'mk ccr _ pkg secrets pull rev ignore skip webhook ess server client labels := s in
  mk ccr v pkg secrets pull rev ignore skip webhook ess server client labels.
Definition set_Package v (s : t) : t :=
  let 'mk ccr state _ secrets pull rev ignore skip webhook ess server client labels := s in
  mk ccr state v secrets pull rev ignore skip webhook ess server client labels.
Definition set_PackagePullSecrets v (s : t) : t :=
  let 'mk ccr state pkg _ pull rev ignore skip webhook ess server client labels := s in
  mk ccr state pkg v pull rev ignore skip webhook ess server client labels.
Definition set_PackagePullPolicy v (s : t) : t :=
  let 'mk ccr state pkg secrets _ rev ignore skip webhook ess server client labels := s in
  mk ccr state pkg secrets v rev ignore skip webhook ess server client labels.
Definition set_Revision v (s : t) : t :=
  let 'mk ccr state pkg secrets pull _ ignore skip webhook ess server client labels := s in
  mk ccr state pkg secrets pull v ignore skip webhook ess server client labels.
Definition set_IgnoreCrossplaneConstraints v (s : t) : t :=
  let 'mk ccr state pkg secrets pull rev _ skip webhook ess server client labels := s in
  mk ccr state pkg secrets pull rev v skip webhook ess server client labels.
Definition set_SkipDependencyResolution v (s : t) : t :=
  let 'mk ccr state pkg secrets pull rev ignore _ webhook ess server client labels := s in
  mk ccr state pkg secrets pull rev ignore v webhook ess server client labels.
Definition set_WebhookTLSSecretName v (s : t) : t :=
  let 'mk ccr state pkg secrets pull rev ignore skip _ ess server client labels := s in
  mk ccr state pkg secrets pull rev ignore skip v ess server client labels.
Definition set_ESSTLSSecretName v (s : t) : t :=
  let 'mk ccr state pkg secrets pull rev ignore skip webhook _ server client labels := s in
  mk ccr state pkg secrets pull rev ignore skip webhook v server client labels.
Definition set_TLSServerSecretName v (s : t) : t :=
  let 'mk ccr state pkg secrets pull rev ignore skip webhook ess _ client labels := s in
  mk ccr state pkg secrets pull rev ignore skip webhook ess v client labels.
Definition set_TLSClientSecretName v (s : t) : t :=
  let 'mk ccr state pkg secrets pull rev ignore skip webhook ess server _ labels := s in
  mk ccr state pkg secrets pull rev ignore skip webhook ess server v labels.
Definition set_CommonLabels v (s : t) : t :=
  let 'mk ccr state pkg secrets pull rev ignore skip webhook ess server client _ := s in
  mk ccr state pkg secrets pull rev ignore skip webhook ess server client v.

(** The value of a field. *)
Definition get (f : field) (s : t) : field_type f :=
  match f with
  | F_ControllerConfigReference => ControllerConfigReference s
  | F_DesiredState => DesiredState s
  | F_Package => Package s
  | F_PackagePullSecrets => PackagePullSecrets s
  | F_PackagePullPolicy => PackagePullPolicy s
  | F_Revision => Revision s
  | F_IgnoreCrossplaneConstraints => IgnoreCrossplaneConstraints s
  | F_SkipDependencyResolution => SkipDependencyResolution s
  | F_WebhookTLSSecretName => WebhookTLSSecretName s
  | F_ESSTLSSecretName => ESSTLSSecretName s
  | F_TLSServerSecretName => TLSServerSecretName s
  | F_TLSClientSecretName => TLSClientSecretName s
  | F_CommonLabels => CommonLabels s
  end.

Definition zero : t := mk None "" "" [] None 0%Z None None None None None None ∅.

End PackageRevisionSpec.

Module PackageRevisionStatus.

(** The fields by name, with their types. *)
Inductive field :=
  | F_ConditionedStatus | F_ControllerRef | F_ObjectRefs | F_FoundDependencies
  | F_InstalledDependencies | F_InvalidDependencies | F_PermissionRequests.
Definition field_type (f : field) : Type :=
  match f with
  | F_ConditionedStatus => xpv1.ConditionedStatus
  | F_ControllerRef => ControllerReference
  | F_ObjectRefs => list xpv1.TypedReference
  | F_FoundDependencies => int64
  | F_InstalledDependencies => int64
  | F_InvalidDependencies => int64
  | F_PermissionRequests => list rbacv1.PolicyRule
  end.

Record t := mk {
  ConditionedStatus : xpv1.ConditionedStatus;
  ControllerRef : ControllerReference;
  ObjectRefs : list xpv1.TypedReference;
  FoundDependencies : int64;
  InstalledDependencies : int64;
  InvalidDependencies : int64;
  PermissionRequests : list rbacv1.PolicyRule
}.

Definition set_ConditionedStatus v (s : t) : t :=
  let 'mk _ ctrl objs found installed invalid perms := s in
  mk v ctrl objs found installed invalid perms.
Definition set_ControllerRef v (s : t) : t :=
  let 'mk conds _ objs found installed invalid perms := s in
  mk conds v objs found installed invalid perms.
Definition set_ObjectRefs v (s : t) : t :=
  let 'mk conds ctrl _ found installed invalid perms := s in
  mk conds ctrl v found installed invalid perms.
Definition set_FoundDependencies v (s : t) : t :=
  let 'mk conds ctrl objs _ installed invalid perms := s in
  mk conds ctrl objs v installed invalid perms.
Definition set_InstalledDependencies v (s : t) : t :=
  let 'mk conds ctrl objs found _ invalid perms := s in
  mk conds ctrl objs found v invalid perms.
Definition set_InvalidDependencies v (s : t) : t :=
  let 'mk conds ctrl objs found installed _ perms := s in
  mk conds ctrl objs found installed v perms.
Definition set_PermissionRequests v (s : t) : t :=
  let 'mk conds ctrl objs found installed invalid _ := s in
  mk conds ctrl objs found installed invalid v.

(** The value of a field. *)
Definition get (f : field) (s : t) : field_type f :=
  match f with
  | F_ConditionedStatus => ConditionedStatus s
  | F_ControllerRef => ControllerRef s
  | F_ObjectRefs => ObjectRefs s
  | F_FoundDependencies => FoundDependencies s
  | F_InstalledDependencies => InstalledDependencies s
  | F_InvalidDependencies => InvalidDependencies s
  | F_PermissionRequests => PermissionRequests s
  end.

Definition zero : t :=
  mk (xpv1.mkConditionedStatus go.nil) (mkControllerReference "") [] 0%Z 0%Z 0%Z [].

End PackageRevisionStatus.

(** A call of a setter of the [PackageRevision] interface, with its
    arguments: one of the seventeen setters this file defines on the
    revision types, which are [SetConditions] of [resource.Conditioned] and
    the sixteen the interface declares by name. The interface embeds
    [resource.Object] as well, whose setters ([SetName], [SetLabels], ...)
    are the methods of the embedded [metav1.ObjectMeta]; they are defined by
    the Kubernetes library and are not among these calls. *)
Module RevisionSetter.

Inductive t :=
  | SetConditions (c : list xpv1.Condition)
  | SetObjects (c : list xpv1.TypedReference)
  | SetControllerReference (c : ControllerReference)
  | SetSource (s : string)
  | SetPackagePullSecrets (s : list corev1.LocalObjectReference)
  | SetPackagePullPolicy (i : option corev1.PullPolicy)
  | SetDesiredState (d : PackageRevisionDesiredState)
  | SetIgnoreCrossplaneConstraints (b : option bool)
  | SetControllerConfigRef (r : option ControllerConfigReference)
  | SetRevision (r : int64)
  | SetSkipDependencyResolution (b : option bool)
  | SetDependencyStatus (found installed invalid : int64)
  | SetWebhookTLSSecretName (n : option string)
  | SetCommonLabels (l : gmap string string)
  | SetESSTLSSecretName (s : option string)
  | SetTLSServerSecretName (n : option string)
  | SetTLSClientSecretName (n : option string).

End RevisionSetter.

Module ProviderRevision.

Record t := mk {
  ObjectMeta : metav1.ObjectMeta;
  Spec : PackageRevisionSpec.t;
  Status : PackageRevisionStatus.t
}.

(** The zero value, [ProviderRevision{}]. *)
Definition zero : t := mk metav1.zero PackageRevisionSpec.zero PackageRevisionStatus.zero.

Definition set_Spec (v : PackageRevisionSpec.t) (p : t) : t :=
  let 'mk meta _ status := p in mk meta v status.
Definition set_Status (v : PackageRevisionStatus.t) (p : t) : t :=
  let 'mk meta spec _ := p in mk meta spec v.

(** [p.Spec.F = v]: [f] is the assignment to the field [F] of the spec. *)
Definition assign_spec (f : PackageRevisionSpec.t → PackageRevisionSpec.t) (p : t) : t :=
  set_Spec (f (Spec p)) p.

(** [p.Status.F = v]. *)
Definition assign_status (f : PackageRevisionStatus.t → PackageRevisionStatus.t) (p : t) : t :=
  set_Status (f (Status p)) p.

Section conditioned.
Context `{!xpv1.Methods}.

(** GetCondition of this ProviderRevision. *)
Definition GetCondition (m : xpv1.mem) (p : t) (ct : xpv1.ConditionType) : xpv1.Condition :=
  xpv1.GetCondition m (PackageRevisionStatus.ConditionedStatus (Status p)) ct.

(** SetConditions of this ProviderRevision. The library's method receives the
    address of the embedded [ConditionedStatus]: what it leaves there is
    stored back in the status. *)
Definition SetConditions (m : xpv1.mem) (p : t) (c : list xpv1.Condition) : xpv1.mem * t :=
  let '(m', cs) := xpv1.SetConditions m (PackageRevisionStatus.ConditionedStatus (Status p)) c in
  (m', assign_status (PackageRevisionStatus.set_ConditionedStatus cs) p).

End conditioned.

(** GetObjects of this ProviderRevision. *)
Definition GetObjects (p : t) : list xpv1.TypedReference :=
  PackageRevisionStatus.ObjectRefs (Status p).

(** SetObjects of this ProviderRevision. *)
Definition SetObjects (p : t) (c : list xpv1.TypedReference) : t :=
  assign_status (PackageRevisionStatus.set_ObjectRefs c) p.

(** GetControllerReference of this ProviderRevision. *)
Definition GetControllerReference (p : t) : ControllerReference :=
  PackageRevisionStatus.ControllerRef (Status p).

(** SetControllerReference of this ProviderRevision. *)
Definition SetControllerReference (p : t) (c : ControllerReference) : t :=
  assign_status (PackageRevisionStatus.set_ControllerRef c) p.

(** GetSource of this ProviderRevision. *)
Definition GetSource (p : t) : string := PackageRevisionSpec.Package (Spec p).

(** SetSource of this ProviderRevision. *)
Definition SetSource (p : t) (s : string) : t :=
  assign_spec (PackageRevisionSpec.set_Package s) p.

(** GetPackagePullSecrets of this ProviderRevision. *)
Definition GetPackagePullSecrets (p : t) : list corev1.LocalObjectReference :=
  PackageRevisionSpec.PackagePullSecrets (Spec p).

(** SetPackagePullSecrets of this ProviderRevision. *)
Definition SetPackagePullSecrets (p : t) (s : list corev1.LocalObjectReference) : t :=
  assign_spec (PackageRevisionSpec.set_PackagePullSecrets s) p.

(** GetPackagePullPolicy of this ProviderRevision. *)
Definition GetPackagePullPolicy (p : t) : option corev1.PullPolicy :=
  PackageRevisionSpec.PackagePullPolicy (Spec p).

(** SetPackagePullPolicy of this ProviderRevision. *)
Definition SetPackagePullPolicy (p : t) (i : option corev1.PullPolicy) : t :=
  assign_spec (PackageRevisionSpec.set_PackagePullPolicy i) p.

(** GetDesiredState of this ProviderRevision. *)
Definition GetDesiredState (p : t) : PackageRevisionDesiredState :=
  PackageRevisionSpec.DesiredState (Spec p).

(** SetDesiredState of this ProviderRevision. *)
Definition SetDesiredState (p : t) (s : PackageRevisionDesiredState) : t :=
  assign_spec (PackageRevisionSpec.set_DesiredState s) p.

(** GetRevision of this ProviderRevision. *)
Definition GetRevision (p : t) : int64 := PackageRevisionSpec.Revision (Spec p).

(** SetRevision of this ProviderRevision. *)
Definition SetRevision (p : t) (r : int64) : t :=
  assign_spec (PackageRevisionSpec.set_Revision r) p.

(** GetDependencyStatus of this ProviderRevision. *)
Definition GetDependencyStatus (p : t) : int64 * int64 * int64 :=
  (PackageRevisionStatus.FoundDependencies (Status p),
   PackageRevisionStatus.InstalledDependencies (Status p),
   PackageRevisionStatus.InvalidDependencies (Status p)).

(** SetDependencyStatus of this ProviderRevision: three assignments, in the order
    of the source. *)
Definition SetDependencyStatus (p : t) (found installed invalid : int64) : t :=
  let p := assign_status (PackageRevisionStatus.set_FoundDependencies found) p in
  let p := assign_status (PackageRevisionStatus.set_InstalledDependencies installed) p in
  assign_status (PackageRevisionStatus.set_InvalidDependencies invalid) p.

(** GetIgnoreCrossplaneConstraints of this ProviderRevision. *)
Definition GetIgnoreCrossplaneConstraints (p : t) : option bool :=
  PackageRevisionSpec.IgnoreCrossplaneConstraints (Spec p).

(** SetIgnoreCrossplaneConstraints of this ProviderRevision. *)
Definition SetIgnoreCrossplaneConstraints (p : t) (b : option bool) : t :=
  assign_spec (PackageRevisionSpec.set_IgnoreCrossplaneConstraints b) p.

(** GetControllerConfigRef of this ProviderRevision. *)
Definition GetControllerConfigRef (p : t) : option ControllerConfigReference :=
  PackageRevisionSpec.ControllerConfigReference (Spec p).

(** SetControllerConfigRef of this ProviderRevision. *)
Definition SetControllerConfigRef (p : t) (r : option ControllerConfigReference) : t :=
  assign_spec (PackageRevisionSpec.set_ControllerConfigReference r) p.

(** GetSkipDependencyResolution of this ProviderRevision. *)
Definition GetSkipDependencyResolution (p : t) : option bool :=
  PackageRevisionSpec.SkipDependencyResolution (Spec p).

(** SetSkipDependencyResolution of this ProviderRevision. *)
Definition SetSkipDependencyResolution (p : t) (b : option bool) : t :=
  assign_spec (PackageRevisionSpec.set_SkipDependencyResolution b) p.

(** GetWebhookTLSSecretName of this ProviderRevision. *)
Definition GetWebhookTLSSecretName (p : t) : option string :=
  PackageRevisionSpec.WebhookTLSSecretName (Spec p).

(** SetWebhookTLSSecretName of this ProviderRevision. *)
Definition SetWebhookTLSSecretName (p : t) (b : option string) : t :=
  assign_spec (PackageRevisionSpec.set_WebhookTLSSecretName b) p.

(** GetESSTLSSecretName of this ProviderRevision. *)
Definition GetESSTLSSecretName (p : t) : option string :=
  PackageRevisionSpec.ESSTLSSecretName (Spec p).

(** SetESSTLSSecretName of this ProviderRevision. *)
Definition SetESSTLSSecretName (p : t) (s : option string) : t :=
  assign_spec (PackageRevisionSpec.set_ESSTLSSecretName s) p.

(** GetTLSServerSecretName of this ProviderRevision. *)
Definition GetTLSServerSecretName (p : t) : option string :=
  PackageRevisionSpec.TLSServerSecretName (Spec p).

(** SetTLSServerSecretName of this ProviderRevision. *)
Definition SetTLSServerSecretName (p : t) (s : option string) : t :=
  assign_spec (PackageRevisionSpec.set_TLSServerSecretName s) p.

(** GetTLSClientSecretName of this ProviderRevision. *)
Definition GetTLSClientSecretName (p : t) : option string :=
  PackageRevisionSpec.TLSClientSecretName (Spec p).

(** SetTLSClientSecretName of this ProviderRevision. *)
Definition SetTLSClientSecretName (p : t) (s : option string) : t :=
  assign_spec (PackageRevisionSpec.set_TLSClientSecretName s) p.

(** GetCommonLabels of this ProviderRevision. *)
Definition GetCommonLabels (p : t) : gmap string string :=
  PackageRevisionSpec.CommonLabels (Spec p).

(** SetCommonLabels of this ProviderRevision. *)
Definition SetCommonLabels (p : t) (l : gmap string string) : t :=
  assign_spec (PackageRevisionSpec.set_CommonLabels l) p.

(** The fields of a ProviderRevision: its metadata, the fields of its spec
    and those of its status. *)
Inductive field :=
  | F_ObjectMeta | F_Spec (f : PackageRevisionSpec.field) | F_Status (f : PackageRevisionStatus.field).
Definition field_type (f : field) : Type :=
  match f with
  | F_ObjectMeta => metav1.ObjectMeta
  | F_Spec f => PackageRevisionSpec.field_type f
  | F_Status f => PackageRevisionStatus.field_type f
  end.
Definition get (f : field) (p : t) : field_type f :=
  match f with
  | F_ObjectMeta => ObjectMeta p
  | F_Spec f => PackageRevisionSpec.get f (Spec p)
  | F_Status f => PackageRevisionStatus.get f (Status p)
  end.

(** The fields a setter names. *)
Definition writes (c : RevisionSetter.t) : list field :=
  match c with
  | RevisionSetter.SetConditions _ => [F_Status PackageRevisionStatus.F_ConditionedStatus]
  | RevisionSetter.SetObjects _ => [F_Status PackageRevisionStatus.F_ObjectRefs]
  | RevisionSetter.SetControllerReference _ => [F_Status PackageRevisionStatus.F_ControllerRef]
  | RevisionSetter.SetSource _ => [F_Spec PackageRevisionSpec.F_Package]
  | RevisionSetter.SetPackagePullSecrets _ => [F_Spec PackageRevisionSpec.F_PackagePullSecrets]
  | RevisionSetter.SetPackagePullPolicy _ => [F_Spec PackageRevisionSpec.F_PackagePullPolicy]
  | RevisionSetter.SetDesiredState _ => [F_Spec PackageRevisionSpec.F_DesiredState]
  | RevisionSetter.SetIgnoreCrossplaneConstraints _ =>
      [F_Spec PackageRevisionSpec.F_IgnoreCrossplaneConstraints]
  | RevisionSetter.SetControllerConfigRef _ =>
      [F_Spec PackageRevisionSpec.F_ControllerConfigReference]
  | RevisionSetter.SetRevision _ => [F_Spec PackageRevisionSpec.F_Revision]
  | RevisionSetter.SetSkipDependencyResolution _ =>
      [F_Spec PackageRevisionSpec.F_SkipDependencyResolution]
  | RevisionSetter.SetDependencyStatus _ _ _ =>
      [F_Status PackageRevisionStatus.F_FoundDependencies;
       F_Status PackageRevisionStatus.F_InstalledDependencies;
       F_Status PackageRevisionStatus.F_InvalidDependencies]
  | RevisionSetter.SetWebhookTLSSecretName _ => [F_Spec PackageRevisionSpec.F_WebhookTLSSecretName]
  | RevisionSetter.SetCommonLabels _ => [F_Spec PackageRevisionSpec.F_CommonLabels]
  | RevisionSetter.SetESSTLSSecretName _ => [F_Spec PackageRevisionSpec.F_ESSTLSSecretName]
  | RevisionSetter.SetTLSServerSecretName _ => [F_Spec PackageRevisionSpec.F_TLSServerSecretName]
  | RevisionSetter.SetTLSClientSecretName _ => [F_Spec PackageRevisionSpec.F_TLSClientSecretName]
  end.

Section call.
Context `{!xpv1.Methods}.

(** The call of a setter on a ProviderRevision: the receiver and the
    conditions memory after it. *)
Definition call (c : RevisionSetter.t) (m : xpv1.mem) (p : t) : xpv1.mem * t :=
  match c with
  | RevisionSetter.SetConditions cs => SetConditions m p cs
  | RevisionSetter.SetObjects c => (m, SetObjects p c)
  | RevisionSetter.SetControllerReference c => (m, SetControllerReference p c)
  | RevisionSetter.SetSource s => (m, SetSource p s)
  | RevisionSetter.SetPackagePullSecrets s => (m, SetPackagePullSecrets p s)
  | RevisionSetter.SetPackagePullPolicy i => (m, SetPackagePullPolicy p i)
  | RevisionSetter.SetDesiredState d => (m, SetDesiredState p d)
  | RevisionSetter.SetIgnoreCrossplaneConstraints b => (m, SetIgnoreCrossplaneConstraints p b)
  | RevisionSetter.SetControllerConfigRef r => (m, SetControllerConfigRef p r)
  | RevisionSetter.SetRevision r => (m, SetRevision p r)
  | RevisionSetter.SetSkipDependencyResolution b => (m, SetSkipDependencyResolution p b)
  | RevisionSetter.SetDependencyStatus found installed invalid =>
      (m, SetDependencyStatus p found installed invalid)
  | RevisionSetter.SetWebhookTLSSecretName n => (m, SetWebhookTLSSecretName p n)
  | RevisionSetter.SetCommonLabels l => (m, SetCommonLabels p l)
  | RevisionSetter.SetESSTLSSecretName s => (m, SetESSTLSSecretName p s)
  | RevisionSetter.SetTLSServerSecretName n => (m, SetTLSServerSecretName p n)
  | RevisionSetter.SetTLSClientSecretName n => (m, SetTLSClientSecretName p n)
  end.

End call.

End ProviderRevision.

Module ConfigurationRevision.

Record t := mk {
  ObjectMeta : metav1.ObjectMeta;
  Spec : PackageRevisionSpec.t;
  Status : PackageRevisionStatus.t
}.

(** The zero value, [ConfigurationRevision{}]. *)
Definition zero : t := mk metav1.zero PackageRevisionSpec.zero PackageRevisionStatus.zero.

Definition set_Spec (v : PackageRevisionSpec.t) (p : t) : t :=
  let 'mk meta _ status := p in mk meta v status.
Definition set_Status (v : PackageRevisionStatus.t) (p : t) : t :=
  let 'mk meta spec _ := p in mk meta spec v.

(** [p.Spec.F = v]: [f] is the assignment to the field [F] of the spec. *)
Definition assign_spec (f : PackageRevisionSpec.t → PackageRevisionSpec.t) (p : t) : t :=
  set_Spec (f (Spec p)) p.

(** [p.Status.F = v]. *)
Definition assign_status (f : PackageRevisionStatus.t → PackageRevisionStatus.t) (p : t) : t :=
  set_Status (f (Status p)) p.

Section conditioned.
Context `{!xpv1.Methods}.

(** GetCondition of this ConfigurationRevision. *)
Definition GetCondition (m : xpv1.mem) (p : t) (ct : xpv1.ConditionType) : xpv1.Condition :=
  xpv1.GetCondition m (PackageRevisionStatus.ConditionedStatus (Status p)) ct.

(** SetConditions of this ConfigurationRevision. The library's method receives the
    address of the embedded [ConditionedStatus]: what it leaves there is
    stored back in the status. *)
Definition SetConditions (m : xpv1.mem) (p : t) (c : list xpv1.Condition) : xpv1.mem * t :=
  let '(m', cs) := xpv1.SetConditions m (PackageRevisionStatus.ConditionedStatus (Status p)) c in
  (m', assign_status (PackageRevisionStatus.set_ConditionedStatus cs) p).

End conditioned.

(** GetObjects of this ConfigurationRevision. *)
Definition GetObjects (p : t) : list xpv1.TypedReference :=
  PackageRevisionStatus.ObjectRefs (Status p).

(** SetObjects of this ConfigurationRevision. *)
Definition SetObjects (p : t) (c : list xpv1.TypedReference) : t :=
  assign_status (PackageRevisionStatus.set_ObjectRefs c) p.

(** GetControllerReference of this ConfigurationRevision. *)
Definition GetControllerReference (p : t) : ControllerReference :=
  PackageRevisionStatus.ControllerRef (Status p).

(** SetControllerReference of this ConfigurationRevision. *)
Definition SetControllerReference (p : t) (c : ControllerReference) : t :=
  assign_status (PackageRevisionStatus.set_ControllerRef c) p.

(** GetSource of this ConfigurationRevision. *)
Definition GetSource (p : t) : string := PackageRevisionSpec.Package (Spec p).

(** SetSource of this ConfigurationRevision. *)
Definition SetSource (p : t) (s : string) : t :=
  assign_spec (PackageRevisionSpec.set_Package s) p.

(** GetPackagePullSecrets of this ConfigurationRevision. *)
Definition GetPackagePullSecrets (p : t) : list corev1.LocalObjectReference :=
  PackageRevisionSpec.PackagePullSecrets (Spec p).

(** SetPackagePullSecrets of this ConfigurationRevision. *)
Definition SetPackagePullSecrets (p : t) (s : list corev1.LocalObjectReference) : t :=
  assign_spec (PackageRevisionSpec.set_PackagePullSecrets s) p.

(** GetPackagePullPolicy of this ConfigurationRevision. *)
Definition GetPackagePullPolicy (p : t) : option corev1.PullPolicy :=
  PackageRevisionSpec.PackagePullPolicy (Spec p).

(** SetPackagePullPolicy of this ConfigurationRevision. *)
Definition SetPackagePullPolicy (p : t) (i : option corev1.PullPolicy) : t :=
  assign_spec (PackageRevisionSpec.set_PackagePullPolicy i) p.

(** GetDesiredState of this ConfigurationRevision. *)
Definition GetDesiredState (p : t) : PackageRevisionDesiredState :=
  PackageRevisionSpec.DesiredState (Spec p).

(** SetDesiredState of this ConfigurationRevision. *)
Definition SetDesiredState (p : t) (s : PackageRevisionDesiredState) : t :=
  assign_spec (PackageRevisionSpec.set_DesiredState s) p.

(** GetRevision of this ConfigurationRevision. *)
Definition GetRevision (p : t) : int64 := PackageRevisionSpec.Revision (Spec p).

(** SetRevision of this ConfigurationRevision. *)
Definition SetRevision (p : t) (r : int64) : t :=
  assign_spec (PackageRevisionSpec.set_Revision r) p.

(** GetDependencyStatus of this ConfigurationRevision. *)
Definition GetDependencyStatus (p : t) : int64 * int64 * int64 :=
  (PackageRevisionStatus.FoundDependencies (Status p),
   PackageRevisionStatus.InstalledDependencies (Status p),
   PackageRevisionStatus.InvalidDependencies (Status p)).

(** SetDependencyStatus of this ConfigurationRevision: three assignments, in the order
    of the source. *)
Definition SetDependencyStatus (p : t) (found installed invalid : int64) : t :=
  let p := assign_status (PackageRevisionStatus.set_FoundDependencies found) p in
  let p := assign_status (PackageRevisionStatus.set_InstalledDependencies installed) p in
  assign_status (PackageRevisionStatus.set_InvalidDependencies invalid) p.

(** GetIgnoreCrossplaneConstraints of this ConfigurationRevision. *)
Definition GetIgnoreCrossplaneConstraints (p : t) : option bool :=
  PackageRevisionSpec.IgnoreCrossplaneConstraints (Spec p).

(** SetIgnoreCrossplaneConstraints of this ConfigurationRevision. *)
Definition SetIgnoreCrossplaneConstraints (p : t) (b : option bool) : t :=
  assign_spec (PackageRevisionSpec.set_IgnoreCrossplaneConstraints b) p.

(** GetControllerConfigRef of this ConfigurationRevision. *)
Definition GetControllerConfigRef (p : t) : option ControllerConfigReference :=
  PackageRevisionSpec.ControllerConfigReference (Spec p).

(** SetControllerConfigRef of this ConfigurationRevision. *)
Definition SetControllerConfigRef (p : t) (r : option ControllerConfigReference) : t :=
  assign_spec (PackageRevisionSpec.set_ControllerConfigReference r) p.

(** GetSkipDependencyResolution of this ConfigurationRevision. *)
Definition GetSkipDependencyResolution (p : t) : option bool :=
  PackageRevisionSpec.SkipDependencyResolution (Spec p).

(** SetSkipDependencyResolution of this ConfigurationRevision. *)
Definition SetSkipDependencyResolution (p : t) (b : option bool) : t :=
  assign_spec (PackageRevisionSpec.set_SkipDependencyResolution b) p.

(** GetWebhookTLSSecretName of this ConfigurationRevision. *)
Definition GetWebhookTLSSecretName (p : t) : option string :=
  PackageRevisionSpec.WebhookTLSSecretName (Spec p).

(** SetWebhookTLSSecretName of this ConfigurationRevision. *)
Definition SetWebhookTLSSecretName (p : t) (b : option string) : t :=
  assign_spec (PackageRevisionSpec.set_WebhookTLSSecretName b) p.

(** GetESSTLSSecretName of this ConfigurationRevision. *)
Definition GetESSTLSSecretName (p : t) : option string :=
  PackageRevisionSpec.ESSTLSSecretName (Spec p).

(** SetESSTLSSecretName of this ConfigurationRevision. *)
Definition SetESSTLSSecretName (p : t) (s : option string) : t :=
  assign_spec (PackageRevisionSpec.set_ESSTLSSecretName s) p.

(** GetTLSServerSecretName of this ConfigurationRevision. *)
Definition GetTLSServerSecretName (p : t) : option string :=
  PackageRevisionSpec.TLSServerSecretName (Spec p).

(** SetTLSServerSecretName of this ConfigurationRevision. *)
Definition SetTLSServerSecretName (p : t) (s : option string) : t :=
  assign_spec (PackageRevisionSpec.set_TLSServerSecretName s) p.

(** GetTLSClientSecretName of this ConfigurationRevision. *)
Definition GetTLSClientSecretName (p : t) : option string :=
  PackageRevisionSpec.TLSClientSecretName (Spec p).

(** SetTLSClientSecretName of this ConfigurationRevision. *)
Definition SetTLSClientSecretName (p : t) (s : option string) : t :=
  assign_spec (PackageRevisionSpec.set_TLSClientSecretName s) p.

(** GetCommonLabels of this ConfigurationRevision. *)
Definition GetCommonLabels (p : t) : gmap string string :=
  PackageRevisionSpec.CommonLabels (Spec p).

(** SetCommonLabels of this ConfigurationRevision. *)
Definition SetCommonLabels (p : t) (l : gmap string string) : t :=
  assign_spec (PackageRevisionSpec.set_CommonLabels l) p.

(** The fields of a ConfigurationRevision: its metadata, the fields of its spec
    and those of its status. *)
Inductive field :=
  | F_ObjectMeta | F_Spec (f : PackageRevisionSpec.field) | F_Status (f : PackageRevisionStatus.field).
Definition field_type (f : field) : Type :=
  match f with
  | F_ObjectMeta => metav1.ObjectMeta
  | F_Spec f => PackageRevisionSpec.field_type f
  | F_Status f => PackageRevisionStatus.field_type f
  end.
Definition get (f : field) (p : t) : field_type f :=
  match f with
  | F_ObjectMeta => ObjectMeta p
  | F_Spec f => PackageRevisionSpec.get f (Spec p)
  | F_Status f => PackageRevisionStatus.get f (Status p)
  end.

(** The fields a setter names. *)
Definition writes (c : RevisionSetter.t) : list field :=
  match c with
  | RevisionSetter.SetConditions _ => [F_Status PackageRevisionStatus.F_ConditionedStatus]
  | RevisionSetter.SetObjects _ => [F_Status PackageRevisionStatus.F_ObjectRefs]
  | RevisionSetter.SetControllerReference _ => [F_Status PackageRevisionStatus.F_ControllerRef]
  | RevisionSetter.SetSource _ => [F_Spec PackageRevisionSpec.F_Package]
  | RevisionSetter.SetPackagePullSecrets _ => [F_Spec PackageRevisionSpec.F_PackagePullSecrets]
  | RevisionSetter.SetPackagePullPolicy _ => [F_Spec PackageRevisionSpec.F_PackagePullPolicy]
  | RevisionSetter.SetDesiredState _ => [F_Spec PackageRevisionSpec.F_DesiredState]
  | RevisionSetter.SetIgnoreCrossplaneConstraints _ =>
      [F_Spec PackageRevisionSpec.F_IgnoreCrossplaneConstraints]
  | RevisionSetter.SetControllerConfigRef _ =>
      [F_Spec PackageRevisionSpec.F_ControllerConfigReference]
  | RevisionSetter.SetRevision _ => [F_Spec PackageRevisionSpec.F_Revision]
  | RevisionSetter.SetSkipDependencyResolution _ =>
      [F_Spec PackageRevisionSpec.F_SkipDependencyResolution]
  | RevisionSetter.SetDependencyStatus _ _ _ =>
      [F_Status PackageRevisionStatus.F_FoundDependencies;
       F_Status PackageRevisionStatus.F_InstalledDependencies;
       F_Status PackageRevisionStatus.F_InvalidDependencies]
  | RevisionSetter.SetWebhookTLSSecretName _ => [F_Spec PackageRevisionSpec.F_WebhookTLSSecretName]
  | RevisionSetter.SetCommonLabels _ => [F_Spec PackageRevisionSpec.F_CommonLabels]
  | RevisionSetter.SetESSTLSSecretName _ => [F_Spec PackageRevisionSpec.F_ESSTLSSecretName]
  | RevisionSetter.SetTLSServerSecretName _ => [F_Spec PackageRevisionSpec.F_TLSServerSecretName]
  | RevisionSetter.SetTLSClientSecretName _ => [F_Spec PackageRevisionSpec.F_TLSClientSecretName]
  end.

Section call.
Context `{!xpv1.Methods}.

(** The call of a setter on a ConfigurationRevision: the receiver and the
    conditions memory after it. *)
Definition call (c : RevisionSetter.t) (m : xpv1.mem) (p : t) : xpv1.mem * t :=
  match c with
  | RevisionSetter.SetConditions cs => SetConditions m p cs
  | RevisionSetter.SetObjects c => (m, SetObjects p c)
  | RevisionSetter.SetControllerReference c => (m, SetControllerReference p c)
  | RevisionSetter.SetSource s => (m, SetSource p s)
  | RevisionSetter.SetPackagePullSecrets s => (m, SetPackagePullSecrets p s)
  | RevisionSetter.SetPackagePullPolicy i => (m, SetPackagePullPolicy p i)
  | RevisionSetter.SetDesiredState d => (m, SetDesiredState p d)
  | RevisionSetter.SetIgnoreCrossplaneConstraints b => (m, SetIgnoreCrossplaneConstraints p b)
  | RevisionSetter.SetControllerConfigRef r => (m, SetControllerConfigRef p r)
  | RevisionSetter.SetRevision r => (m, SetRevision p r)
  | RevisionSetter.SetSkipDependencyResolution b => (m, SetSkipDependencyResolution p b)
  | RevisionSetter.SetDependencyStatus found installed invalid =>
      (m, SetDependencyStatus p found installed invalid)
  | RevisionSetter.SetWebhookTLSSecretName n => (m, SetWebhookTLSSecretName p n)
  | RevisionSetter.SetCommonLabels l => (m, SetCommonLabels p l)
  | RevisionSetter.SetESSTLSSecretName s => (m, SetESSTLSSecretName p s)
  | RevisionSetter.SetTLSServerSecretName n => (m, SetTLSServerSecretName p n)
  | RevisionSetter.SetTLSClientSecretName n => (m, SetTLSClientSecretName p n)
  end.

End call.

End ConfigurationRevision.
(** ** The interfaces *)

Module Package.

(** Package is the interface satisfied by package types. Its two
    implementations are [*Provider] and [*Configuration]: a value of the
    interface is the struct behind the pointer, tagged with its type, and a
    method call on it runs the method of that type. *)
Inductive t :=
  | OfProvider (p : Provider.t)
  | OfConfiguration (p : Configuration.t).

(** The capabilities of a package that are a getter and a setter of one
    value. ([Conditioned], the twelfth, is [GetCondition] and
    [SetConditions] below.) *)
Inductive capability :=
  | Source
  | ActivationPolicy
  | PullSecrets
  | PullPolicy
  | RevisionHistoryLimit
  | IgnoreCrossplaneConstraints
  | ControllerConfigRef
  | CurrentRevision
  | CurrentIdentifier
  | SkipDependencyResolution
  | CommonLabels.

(** The type of the value of a capability. *)
Definition value (c : capability) : Type :=
  match c with
  | Source => string
  | ActivationPolicy => option RevisionActivationPolicy
  | PullSecrets => list corev1.LocalObjectReference
  | PullPolicy => option corev1.PullPolicy
  | RevisionHistoryLimit => option int64
  | IgnoreCrossplaneConstraints => option bool
  | ControllerConfigRef => option ControllerConfigReference
  | CurrentRevision => string
  | CurrentIdentifier => string
  | SkipDependencyResolution => option bool
  | CommonLabels => gmap string string
  end.

(** The setter of a capability, called with a value. *)
Definition setter (c : capability) : value c → PackageSetter.t :=
  match c with
  | Source => PackageSetter.SetSource
  | ActivationPolicy => PackageSetter.SetActivationPolicy
  | PullSecrets => PackageSetter.SetPackagePullSecrets
  | PullPolicy => PackageSetter.SetPackagePullPolicy
  | RevisionHistoryLimit => PackageSetter.SetRevisionHistoryLimit
  | IgnoreCrossplaneConstraints => PackageSetter.SetIgnoreCrossplaneConstraints
  | ControllerConfigRef => PackageSetter.SetControllerConfigRef
  | CurrentRevision => PackageSetter.SetCurrentRevision
  | CurrentIdentifier => PackageSetter.SetCurrentIdentifier
  | SkipDependencyResolution => PackageSetter.SetSkipDependencyResolution
  | CommonLabels => PackageSetter.SetCommonLabels
  end.

(** The getter of a capability, called on a package. *)
Definition getter (c : capability) (pkg : t) : value c :=
  match pkg with
  | OfProvider p =>
      match c with
      | Source => Provider.GetSource p
      | ActivationPolicy => Provider.GetActivationPolicy p
      | PullSecrets => Provider.GetPackagePullSecrets p
      | PullPolicy => Provider.GetPackagePullPolicy p
      | RevisionHistoryLimit => Provider.GetRevisionHistoryLimit p
      | IgnoreCrossplaneConstraints => Provider.GetIgnoreCrossplaneConstraints p
      | ControllerConfigRef => Provider.GetControllerConfigRef p
      | CurrentRevision => Provider.GetCurrentRevision p
      | CurrentIdentifier => Provider.GetCurrentIdentifier p
      | SkipDependencyResolution => Provider.GetSkipDependencyResolution p
      | CommonLabels => Provider.GetCommonLabels p
      end
  | OfConfiguration p =>
      match c with
      | Source => Configuration.GetSource p
      | ActivationPolicy => Configuration.GetActivationPolicy p
      | PullSecrets => Configuration.GetPackagePullSecrets p
      | PullPolicy => Configuration.GetPackagePullPolicy p
      | RevisionHistoryLimit => Configuration.GetRevisionHistoryLimit p
      | IgnoreCrossplaneConstraints => Configuration.GetIgnoreCrossplaneConstraints p
      | ControllerConfigRef => Configuration.GetControllerConfigRef p
      | CurrentRevision => Configuration.GetCurrentRevision p
      | CurrentIdentifier => Configuration.GetCurrentIdentifier p
      | SkipDependencyResolution => Configuration.GetSkipDependencyResolution p
      | CommonLabels => Configuration.GetCommonLabels p
      end
  end.

Section methods.
Context `{!xpv1.Methods}.

(** The call of a setter on a package. *)
Definition call (c : PackageSetter.t) (m : xpv1.mem) (pkg : t) : xpv1.mem * t :=
  match pkg with
  | OfProvider p => let '(m', p') := Provider.call c m p in (m', OfProvider p')
  | OfConfiguration p => let '(m', p') := Configuration.call c m p in (m', OfConfiguration p')
  end.

(** GetCondition of a package. *)
Definition GetCondition (m : xpv1.mem) (pkg : t) (ct : xpv1.ConditionType) : xpv1.Condition :=
  match pkg with
  | OfProvider p => Provider.GetCondition m p ct
  | OfConfiguration p => Configuration.GetCondition m p ct
  end.

End methods.

(** The [ConditionedStatus] embedded in the status of a package. *)
Definition conditioned (pkg : t) : xpv1.ConditionedStatus :=
  match pkg with
  | OfProvider p => PackageStatus.ConditionedStatus (Provider.Status p)
  | OfConfiguration p => PackageStatus.ConditionedStatus (Configuration.Status p)
  end.

End Package.

Module PackageRevision.

(** PackageRevision is the interface satisfied by package revision types,
    [*ProviderRevision] and [*ConfigurationRevision]. *)
Inductive t :=
  | OfProviderRevision (r : ProviderRevision.t)
  | OfConfigurationRevision (r : ConfigurationRevision.t).

(** GetDesiredState of a revision. *)
Definition GetDesiredState (r : t) : PackageRevisionDesiredState :=
  match r with
  | OfProviderRevision p => ProviderRevision.GetDesiredState p
  | OfConfigurationRevision p => ConfigurationRevision.GetDesiredState p
  end.

(** GetRevision of a revision. *)
Definition GetRevision (r : t) : int64 :=
  match r with
  | OfProviderRevision p => ProviderRevision.GetRevision p
  | OfConfigurationRevision p => ConfigurationRevision.GetRevision p
  end.

(** GetDependencyStatus of a revision. *)
Definition GetDependencyStatus (r : t) : int64 * int64 * int64 :=
  match r with
  | OfProviderRevision p => ProviderRevision.GetDependencyStatus p
  | OfConfigurationRevision p => ConfigurationRevision.GetDependencyStatus p
  end.

(** The status of a revision. *)
Definition Status (r : t) : PackageRevisionStatus.t :=
  match r with
  | OfProviderRevision p => ProviderRevision.Status p
  | OfConfigurationRevision p => ConfigurationRevision.Status p
  end.

Section methods.
Context `{!xpv1.Methods}.

(** The call of a setter on a revision. *)
Definition call (c : RevisionSetter.t) (m : xpv1.mem) (r : t) : xpv1.mem * t :=
  match r with
  | OfProviderRevision p =>
      let '(m', p') := ProviderRevision.call c m p in (m', OfProviderRevision p')
  | OfConfigurationRevision p =>
      let '(m', p') := ConfigurationRevision.call c m p in (m', OfConfigurationRevision p')
  end.

(** A sequence of calls, the first of the list first. *)
Definition calls (cs : list RevisionSetter.t) (m : xpv1.mem) (r : t) : xpv1.mem * t :=
  foldl (λ st c, call c st.1 st.2) (m, r) cs.

End methods.

End PackageRevision.

(** ** Revision lists

    [GetRevisions] takes the address of a variable, so here the structs are
    cells of a store: a revision struct per address, next to the memory of
    the condition slices. A pointer to a revision is an address, and a value
    of the [PackageRevision] interface in a slice is [nil] ([None]) or such a
    pointer; the cell it points to says which of the two types it holds. *)

Module store.

Record t := mk {
  cells : gmap loc PackageRevision.t;
  conditions : xpv1.mem
}.

(** A new variable holding [v]: a cell at an address not in use. *)
Definition new (v : PackageRevision.t) (h : t) : loc * t :=
  let a := fresh (dom (cells h)) in
  (a, mk (<[a := v]> (cells h)) (conditions h)).

Section methods.
Context `{!xpv1.Methods}.

(** The call of a setter through a pointer: the method runs on the struct
    the pointer refers to, which is updated in place. A pointer to no cell
    is a nil dereference, [None]. *)
Definition call (c : RevisionSetter.t) (a : loc) (h : t) : option t :=
  match cells h !! a with
  | Some r =>
      let '(m', r') := PackageRevision.call c (conditions h) r in
      Some (mk (<[a := r']> (cells h)) m')
  | None => None
  end.

End methods.

End store.

Module ProviderRevisionList.

(** [Items []ProviderRevision]: a slice of structs, element [i] being the
    cell at [ptr + i]. *)
Record t := mk { Items : go.slice }.

(** The loop of [GetRevisions] from index [i] on, [n] elements being left:
    [r] is the element read from the slice, [r := r] a new variable holding
    it, and [prs[i] = &r] stores the address of that variable. *)
Fixpoint GetRevisions_range (base : loc) (n i : nat) (prs : list (option loc)) (h : store.t)
    : option (list (option loc) * store.t) :=
  match n with
  | 0 => Some (prs, h)
  | S n =>
      match store.cells h !! (base + i) with
      | Some (PackageRevision.OfProviderRevision r) =>
          let '(a, h) := store.new (PackageRevision.OfProviderRevision r) h in
          GetRevisions_range base n (S i) (<[i := Some a]> prs) h
      | _ => None
      end
  end.

(** GetRevisions of this ProviderRevisionList. [None] when the slice does
    not lie in the store as a slice of ProviderRevisions does. *)
Definition GetRevisions (p : t) (h : store.t) : option (list (option loc) * store.t) :=
  let prs := replicate (go.len (Items p)) None in
  GetRevisions_range (go.ptr (Items p)) (go.len (Items p)) 0 prs h.

(** The slice lies in the store: each of its elements is a cell holding a
    ProviderRevision. *)
Definition allocated (p : t) (h : store.t) : Prop :=
  ∀ i, i < go.len (Items p) →
    ∃ r, store.cells h !! (go.ptr (Items p) + i) = Some (PackageRevision.OfProviderRevision r).

End ProviderRevisionList.

Module ConfigurationRevisionList.

(** [Items []ConfigurationRevision]. *)
Record t := mk { Items : go.slice }.

(** The loop of [GetRevisions], as for a ProviderRevisionList. *)
Fixpoint GetRevisions_range (base : loc) (n i : nat) (prs : list (option loc)) (h : store.t)
    : option (list (option loc) * store.t) :=
  match n with
  | 0 => Some (prs, h)
  | S n =>
      match store.cells h !! (base + i) with
      | Some (PackageRevision.OfConfigurationRevision r) =>
          let '(a, h) := store.new (PackageRevision.OfConfigurationRevision r) h in
          GetRevisions_range base n (S i) (<[i := Some a]> prs) h
      | _ => None
      end
  end.

(** GetRevisions of this ConfigurationRevisionList. *)
Definition GetRevisions (p : t) (h : store.t) : option (list (option loc) * store.t) :=
  let prs := replicate (go.len (Items p)) None in
  GetRevisions_range (go.ptr (Items p)) (go.len (Items p)) 0 prs h.

Definition allocated (p : t) (h : store.t) : Prop :=
  ∀ i, i < go.len (Items p) →
    ∃ r, store.cells h !! (go.ptr (Items p) + i)
         = Some (PackageRevision.OfConfigurationRevision r).

End ConfigurationRevisionList.

Module PackageRevisionList.

(** PackageRevisionList is the interface satisfied by package revision list
    types. *)
Inductive t :=
  | OfProviderRevisionList (l : ProviderRevisionList.t)
  | OfConfigurationRevisionList (l : ConfigurationRevisionList.t).

(** The slice of items behind the interface. *)
Definition Items (l : t) : go.slice :=
  match l with
  | OfProviderRevisionList l => ProviderRevisionList.Items l
  | OfConfigurationRevisionList l => ConfigurationRevisionList.Items l
  end.

(** The address of [Items[i]]. *)
Definition item (l : t) (i : nat) : loc := go.ptr (Items l) + i.

(** GetRevisions gets the list of PackageRevisions in a
    PackageRevisionList. *)
Definition GetRevisions (l : t) (h : store.t) : option (list (option loc) * store.t) :=
  match l with
  | OfProviderRevisionList l => ProviderRevisionList.GetRevisions l h
  | OfConfigurationRevisionList l => ConfigurationRevisionList.GetRevisions l h
  end.

(** The items lie in the store, with the element type of the list. *)
Definition allocated (l : t) (h : store.t) : Prop :=
  match l with
  | OfProviderRevisionList l => ProviderRevisionList.allocated l h
  | OfConfigurationRevisionList l => ConfigurationRevisionList.allocated l h
  end.

End PackageRevisionList.

(** ** The persisted schema of a revision

    [cluster/crds/pkg.crossplane.io_functionrevisions.yaml] gives the schema
    a stored revision is validated against, and the columns a listing of
    revisions shows. Stored objects are JSON values. *)

Module json.

Inductive t :=
  | Null
  | Bool (b : bool)
  | Number (n : Z)
  | String (s : string)
  | Array (items : list t)
  | Object (fields : list (string * t)).

(** The value of the field [name] of an object. *)
Fixpoint lookup (name : string) (fields : list (string * t)) : option t :=
  match fields with
  | [] => None
  | (k, v) :: rest => if String.eqb k name then Some v else lookup name rest
  end.

(** An object has a field [name]. *)
Definition has (name : string) (fields : list (string * t)) : bool :=
  match lookup name fields with
  | Some _ => true
  | None => false
  end.

Definition field (name : string) (v : t) : option t :=
  match v with
  | Object fields => lookup name fields
  | _ => None
  end.

(** An optional value is the string [value]. *)
Definition is_string (value : string) (x : option t) : bool :=
  match x with
  | Some (String s) => String.eqb s value
  | _ => false
  end.

(** The value reached by following field names from a value. *)
Fixpoint at_path (names : list string) (v : t) : option t :=
  match names with
  | [] => Some v
  | name :: rest =>
      match field name v with
      | Some x => at_path rest x
      | None => None
      end
  end.

End json.

Module openapi.

Inductive format := Int64 | DateTime.

(** The part of an OpenAPI v3 schema the CRD uses: [type], [format],
    [enum], [items], [properties], [required] and [additionalProperties].
    Descriptions and defaults do not bear on validity and are left out. *)
Inductive schema :=
  | TString (fmt : option format) (enum : option (list string))
  | TInteger (fmt : option format)
  | TBoolean
  | TArray (items : schema)
  | TObject (properties : list (string * schema)) (required : list string)
      (additionalProperties : option schema).

(** A value is valid for a schema when it has the schema's type; a string
    is one of the enumerated values when there are any; an int64 is in
    range; the items of an array are valid; the required fields of an
    object are present and each field is valid for the property of its name,
    or for [additionalProperties] when it has none. A field with neither is
    not checked. The form of a date-time is not checked. *)
Fixpoint valid (s : schema) (v : json.t) {struct s} : bool :=
  match s, v with
  | TString _ enum, json.String x =>
      match enum with
      | Some values => existsb (String.eqb x) values
      | None => true
      end
  | TInteger fmt, json.Number n =>
      match fmt with
      | Some Int64 => go.int64b n
      | _ => true
      end
  | TBoolean, json.Bool _ => true
  | TArray items, json.Array l => forallb (valid items) l
  | TObject properties required additional, json.Object fields =>
      forallb (λ name, json.has name fields) required
      && forallb (λ '(name, x),
           let fix property (ps : list (string * schema)) : bool :=
             match ps with
             | [] =>
                 match additional with
                 | Some a => valid a x
                 | None => true
                 end
             | (k, p) :: rest => if String.eqb k name then valid p x else property rest
             end in
           property properties) fields
  | _, _ => false
  end.

End openapi.

Module crd.

Import openapi.

Definition string_ : schema := TString None None.

(** [spec]: PackageRevisionSpec specifies the desired state of a
    PackageRevision. *)
Definition spec : schema :=
  TObject
    [ ("commonLabels", TObject [] [] (Some string_));
      ("controllerConfigRef", TObject [("name", string_)] ["name"] None);
      ("desiredState", string_);
      ("essTLSSecretName", string_);
      ("ignoreCrossplaneConstraints", TBoolean);
      ("image", string_);
      ("packagePullPolicy", string_);
      ("packagePullSecrets", TArray (TObject [("name", string_)] [] None));
      ("revision", TInteger (Some Int64));
      ("skipDependencyResolution", TBoolean);
      ("tlsClientSecretName", string_);
      ("tlsServerSecretName", string_);
      ("webhookTLSSecretName", string_) ]
    ["desiredState"; "image"; "revision"]
    None.

(** [status]: PackageRevisionStatus represents the observed state of a
    PackageRevision. *)
Definition status : schema :=
  TObject
    [ ("conditions",
       TArray (TObject
         [ ("lastTransitionTime", TString (Some DateTime) None);
           ("message", string_);
           ("reason", string_);
           ("status", string_);
           ("type", string_) ]
         ["lastTransitionTime"; "reason"; "status"; "type"]
         None));
      ("controllerRef", TObject [("name", string_)] ["name"] None);
      ("foundDependencies", TInteger (Some Int64));
      ("installedDependencies", TInteger (Some Int64));
      ("invalidDependencies", TInteger (Some Int64));
      ("objectRefs",
       TArray (TObject
         [ ("apiVersion", string_); ("kind", string_); ("name", string_); ("uid", string_) ]
         ["apiVersion"; "kind"; "name"]
         None));
      ("permissionRequests",
       TArray (TObject
         [ ("apiGroups", TArray string_);
           ("nonResourceURLs", TArray string_);
           ("resourceNames", TArray string_);
           ("resources", TArray string_);
           ("verbs", TArray string_) ]
         ["verbs"]
         None)) ]
    []
    None.

(** [openAPIV3Schema]: A FunctionRevision that has been added to
    Crossplane. *)
Definition openAPIV3Schema : schema :=
  TObject
    [ ("apiVersion", string_);
      ("endpoint", string_);
      ("kind", string_);
      ("metadata", TObject [] [] None);
      ("spec", spec);
      ("status", status) ]
    []
    None.

(** An additional printer column of a listing. *)
Record PrinterColumn := mkColumn { jsonPath : string; name : string; type : string }.

Definition additionalPrinterColumns : list PrinterColumn :=
  [ mkColumn ".status.conditions[?(@.type=='Healthy')].status" "HEALTHY" "string";
    mkColumn ".spec.revision" "REVISION" "string";
    mkColumn ".spec.image" "IMAGE" "string";
    mkColumn ".spec.desiredState" "STATE" "string";
    mkColumn ".status.foundDependencies" "DEP-FOUND" "string";
    mkColumn ".status.installedDependencies" "DEP-INSTALLED" "string";
    mkColumn ".metadata.creationTimestamp" "AGE" "date" ].

End crd.

(** ** The paths of the columns

    A column's [jsonPath] is written in the JSONPath of the API machinery,
    of which the columns use two forms: [.name], the field of an object, and
    [[?(@.name=='value')]], the items of an array whose field [name] is the
    string [value]. The evaluation of a path on a value gives the list of
    the values it reaches. *)

Module jsonpath.

Inductive step :=
  | Child (name : string)
  | Filter (name value : string).

(** The longest prefix of [s] that [stop] does not occur in, and the rest
    of [s] from the first [stop] on. *)
Fixpoint span (stop : ascii → bool) (s : string) : string * string :=
  match s with
  | EmptyString => (EmptyString, EmptyString)
  | String c rest =>
      if stop c then (EmptyString, s)
      else let '(name, rest') := span stop rest in (String c name, rest')
  end.

(** [s] without its prefix [p], when it starts with [p]. *)
Fixpoint strip (p s : string) : option string :=
  match p, s with
  | EmptyString, _ => Some s
  | String a p', String b s' => if Ascii.eqb a b then strip p' s' else None
  | String _ _, EmptyString => None
  end.

Definition is_char (c : ascii) : ascii → bool := Ascii.eqb c.

Definition ends_name (c : ascii) : bool := is_char "." c || is_char "[" c.

(** The steps of a path; [fuel] bounds their number. *)
Fixpoint parse_steps (fuel : nat) (s : string) : option (list step) :=
  match fuel with
  | 0 => None
  | S fuel =>
      match s with
      | EmptyString => Some []
      | String c rest =>
          if is_char "." c then
            let '(name, rest) := span ends_name rest in
            match name with
            | EmptyString => None
            | _ => cons (Child name) <$> parse_steps fuel rest
            end
          else
            rest ← strip "[?(@." s;
            let '(name, rest) := span (is_char "=") rest in
            rest ← strip "=='" rest;
            let '(value, rest) := span (is_char "'") rest in
            rest ← strip "')]" rest;
            cons (Filter name value) <$> parse_steps fuel rest
      end
  end.

(** A path has at most as many steps as characters. *)
Definition parse (s : string) : option (list step) :=
  parse_steps (S (String.length s)) s.

(** The values a step reaches from a value. *)
Definition eval_step (st : step) (v : json.t) : list json.t :=
  match st with
  | Child name => option_list (json.field name v)
  | Filter name value =>
      match v with
      | json.Array items =>
          List.filter (λ item, json.is_string value (json.field name item)) items
      | _ => []
      end
  end.

(** The values a path reaches from a value. *)
Definition eval (path : list step) (v : json.t) : list json.t :=
  foldl (λ vs st, vs ≫= eval_step st) [v] path.

End jsonpath.

(** The additional printer column called [name], one of the columns the CRD
    declares, and what it shows of a stored object: the values its path
    reaches. [None] when the CRD declares no such column or its path is not
    of the two forms above. The column of the name of the object, which the
    server puts before the additional ones of its own, is no column of the
    CRD. *)
Definition column (name : string) : option crd.PrinterColumn :=
  List.find (λ c, String.eqb (crd.name c) name) crd.additionalPrinterColumns.

(** The steps of the path of a column. *)
Definition column_path (name : string) : option (list jsonpath.step) :=
  c ← column name; jsonpath.parse (crd.jsonPath c).

Definition column_value (name : string) (object : json.t) : option (list json.t) :=
  path ← column_path name; Some (jsonpath.eval path object).

(** ** Retention of revisions

    The package reconciler, which deletes the revisions beyond the history
    limit, is no part of [apis/pkg/v1]: retention is modelled from the spec,
    section 4.1 step 3, "among Revisions with desiredState = Inactive, if the
    count exceeds revisionHistoryLimit (when set), delete the
    oldest-by-revision-number excess, oldest first, never deleting the Active
    revision regardless of limit." It reads the revisions and the package
    through their accessors. *)

Module retention.

(** [a] is at most as recent as [b], by revision number. *)
Definition older (a b : PackageRevision.t) : Prop :=
  (PackageRevision.GetRevision a ≤ PackageRevision.GetRevision b)%Z.

Definition is_inactive (r : PackageRevision.t) : Prop :=
  PackageRevision.GetDesiredState r = PackageRevisionInactive.

#[global] Instance older_dec a b : Decision (older a b).
Proof. unfold older. apply _. Defined.

#[global] Instance is_inactive_dec r : Decision (is_inactive r).
Proof. unfold is_inactive, PackageRevisionDesiredState. apply _. Defined.

#[global] Instance older_trans : Transitive older.
Proof. unfold older. intros a b c. lia. Qed.

#[global] Instance older_total : Total older.
Proof. unfold older. intros a b. lia. Qed.

(** Modelled from the spec: the package reconciler's view of the revisions
    retention may delete, "Revisions with desiredState = Inactive",
    "oldest-by-revision-number" first. *)
Definition inactive (revs : list PackageRevision.t) : list PackageRevision.t :=
  merge_sort older (filter is_inactive revs).

(** Modelled from the spec: the package reconciler's retention step. "If
    the count exceeds revisionHistoryLimit (when set)", it deletes "the
    oldest-by-revision-number excess, oldest first": the result lists the
    revisions to delete in the order of their deletion. *)
Definition excess (limit : option int64) (revs : list PackageRevision.t)
    : list PackageRevision.t :=
  match limit with
  | None => []
  | Some l =>
      let count := Z.of_nat (length (inactive revs)) in
      if decide (l < count)%Z then take (Z.to_nat (count - l)) (inactive revs) else []
  end.

(** Modelled from the spec: the inactive revisions the package
    reconciler's retention step keeps, those it does not delete. *)
Definition kept (limit : option int64) (revs : list PackageRevision.t)
    : list PackageRevision.t :=
  drop (length (excess limit revs)) (inactive revs).

(** Modelled from the spec: the package reconciler's retention step for a
    package and the revisions it owns, under the package's
    [revisionHistoryLimit]. *)
Definition enforce (pkg : Package.t) (revs : list PackageRevision.t) : list PackageRevision.t :=
  excess (Package.getter Package.RevisionHistoryLimit pkg) revs.

End retention.

(** ** States of a revision and copies of a list *)

Module reach.

Section reach.
Context `{!xpv1.Methods}.

(** The states of a revision reachable from its zero value by calls of
    setters that satisfy [allowed]. *)
Inductive reachable (allowed : RevisionSetter.t → Prop) : xpv1.mem → PackageRevision.t → Prop :=
  | provider_zero m :
      reachable allowed m (PackageRevision.OfProviderRevision ProviderRevision.zero)
  | configuration_zero m :
      reachable allowed m (PackageRevision.OfConfigurationRevision ConfigurationRevision.zero)
  | step c m r :
      reachable allowed m r → allowed c →
      reachable allowed (PackageRevision.call c m r).1 (PackageRevision.call c m r).2.

End reach.

(** The counters of a dependency status are in order. *)
Definition bounded (status : int64 * int64 * int64) : Prop :=
  let '(found, installed, invalid) := status in
  (0 ≤ invalid ≤ found ∧ 0 ≤ installed ≤ found)%Z.

(** A call whose dependency counters, if it sets them, are in order. *)
Definition in_order (c : RevisionSetter.t) : Prop :=
  match c with
  | RevisionSetter.SetDependencyStatus found installed invalid =>
      bounded (found, installed, invalid)
  | _ => True
  end.

End reach.

(** [addrs] are the addresses of copies made in [h'] of the cells of [h]
    from [base] on: new and distinct addresses, each holding what the cell
    it copies holds, in a store that extends [h] and leaves the conditions
    memory as it is. *)
Definition copies (base : loc) (h h' : store.t) (addrs : list loc) : Prop :=
  NoDup addrs
  ∧ (∀ a, a ∈ addrs → store.cells h !! a = None)
  ∧ (∀ k a, addrs !! k = Some a → store.cells h' !! a = store.cells h !! (base + k))
  ∧ store.cells h ⊆ store.cells h'
  ∧ store.conditions h' = store.conditions h.

(** ** The capabilities of a revision *)

Module RevisionCapability.

(** The pairs of a getter and a setter of the [PackageRevision] interface,
    in the order of the interface. The value of the dependency status is the
    triple of its counters. ([GetCondition] and [SetConditions] are apart, as
    for a package.) *)
Inductive t :=
  | Objects
  | Controller
  | Source
  | PackagePullSecrets
  | PackagePullPolicy
  | DesiredState
  | IgnoreCrossplaneConstraints
  | ControllerConfigRef
  | Revision
  | SkipDependencyResolution
  | DependencyStatus
  | WebhookTLSSecretName
  | CommonLabels
  | ESSTLSSecretName
  | TLSServerSecretName
  | TLSClientSecretName.

(** The type of the value of a capability. *)
Definition value (c : t) : Type :=
  match c with
  | Objects => list xpv1.TypedReference
  | Controller => ControllerReference
  | Source => string
  | PackagePullSecrets => list corev1.LocalObjectReference
  | PackagePullPolicy => option corev1.PullPolicy
  | DesiredState => PackageRevisionDesiredState
  | IgnoreCrossplaneConstraints => option bool
  | ControllerConfigRef => option ControllerConfigReference
  | Revision => int64
  | SkipDependencyResolution => option bool
  | DependencyStatus => int64 * int64 * int64
  | WebhookTLSSecretName => option string
  | CommonLabels => gmap string string
  | ESSTLSSecretName => option string
  | TLSServerSecretName => option string
  | TLSClientSecretName => option string
  end.

(** The setter of a capability, called with a value. *)
Definition setter (c : t) : value c → RevisionSetter.t :=
  match c with
  | Objects => RevisionSetter.SetObjects
  | Controller => RevisionSetter.SetControllerReference
  | Source => RevisionSetter.SetSource
  | PackagePullSecrets => RevisionSetter.SetPackagePullSecrets
  | PackagePullPolicy => RevisionSetter.SetPackagePullPolicy
  | DesiredState => RevisionSetter.SetDesiredState
  | IgnoreCrossplaneConstraints => RevisionSetter.SetIgnoreCrossplaneConstraints
  | ControllerConfigRef => RevisionSetter.SetControllerConfigRef
  | Revision => RevisionSetter.SetRevision
  | SkipDependencyResolution => RevisionSetter.SetSkipDependencyResolution
  | DependencyStatus => λ '(found, installed, invalid),
      RevisionSetter.SetDependencyStatus found installed invalid
  | WebhookTLSSecretName => RevisionSetter.SetWebhookTLSSecretName
  | CommonLabels => RevisionSetter.SetCommonLabels
  | ESSTLSSecretName => RevisionSetter.SetESSTLSSecretName
  | TLSServerSecretName => RevisionSetter.SetTLSServerSecretName
  | TLSClientSecretName => RevisionSetter.SetTLSClientSecretName
  end.

(** The getter of a capability, called on a revision. *)
Definition getter (c : t) (r : PackageRevision.t) : value c :=
  match r with
  | PackageRevision.OfProviderRevision p =>
      match c with
      | Objects => ProviderRevision.GetObjects p
      | Controller => ProviderRevision.GetControllerReference p
      | Source => ProviderRevision.GetSource p
      | PackagePullSecrets => ProviderRevision.GetPackagePullSecrets p
      | PackagePullPolicy => ProviderRevision.GetPackagePullPolicy p
      | DesiredState => ProviderRevision.GetDesiredState p
      | IgnoreCrossplaneConstraints => ProviderRevision.GetIgnoreCrossplaneConstraints p
      | ControllerConfigRef => ProviderRevision.GetControllerConfigRef p
      | Revision => ProviderRevision.GetRevision p
      | SkipDependencyResolution => ProviderRevision.GetSkipDependencyResolution p
      | DependencyStatus => ProviderRevision.GetDependencyStatus p
      | WebhookTLSSecretName => ProviderRevision.GetWebhookTLSSecretName p
      | CommonLabels => ProviderRevision.GetCommonLabels p
      | ESSTLSSecretName => ProviderRevision.GetESSTLSSecretName p
      | TLSServerSecretName => ProviderRevision.GetTLSServerSecretName p
      | TLSClientSecretName => ProviderRevision.GetTLSClientSecretName p
      end
  | PackageRevision.OfConfigurationRevision p =>
      match c with
      | Objects => ConfigurationRevision.GetObjects p
      | Controller => ConfigurationRevision.GetControllerReference p
      | Source => ConfigurationRevision.GetSource p
      | PackagePullSecrets => ConfigurationRevision.GetPackagePullSecrets p
      | PackagePullPolicy => ConfigurationRevision.GetPackagePullPolicy p
      | DesiredState => ConfigurationRevision.GetDesiredState p
      | IgnoreCrossplaneConstraints => ConfigurationRevision.GetIgnoreCrossplaneConstraints p
      | ControllerConfigRef => ConfigurationRevision.GetControllerConfigRef p
      | Revision => ConfigurationRevision.GetRevision p
      | SkipDependencyResolution => ConfigurationRevision.GetSkipDependencyResolution p
      | DependencyStatus => ConfigurationRevision.GetDependencyStatus p
      | WebhookTLSSecretName => ConfigurationRevision.GetWebhookTLSSecretName p
      | CommonLabels => ConfigurationRevision.GetCommonLabels p
      | ESSTLSSecretName => ConfigurationRevision.GetESSTLSSecretName p
      | TLSServerSecretName => ConfigurationRevision.GetTLSServerSecretName p
      | TLSClientSecretName => ConfigurationRevision.GetTLSClientSecretName p
      end
  end.

End RevisionCapability.

(** What a revision holds besides its spec: its metadata, and the
    [ConditionedStatus] embedded in its status. *)
Definition revision_meta (r : PackageRevision.t) : metav1.ObjectMeta :=
  match r with
  | PackageRevision.OfProviderRevision p => ProviderRevision.ObjectMeta p
  | PackageRevision.OfConfigurationRevision p => ConfigurationRevision.ObjectMeta p
  end.

Definition revision_conditioned (r : PackageRevision.t) : xpv1.ConditionedStatus :=
  PackageRevisionStatus.ConditionedStatus (PackageRevision.Status r).

Section revision_conditions.
Context `{!xpv1.Methods}.

(** GetCondition of a revision. *)
Definition revision_GetCondition (m : xpv1.mem) (r : PackageRevision.t)
    (ct : xpv1.ConditionType) : xpv1.Condition :=
  match r with
  | PackageRevision.OfProviderRevision p => ProviderRevision.GetCondition m p ct
  | PackageRevision.OfConfigurationRevision p => ConfigurationRevision.GetCondition m p ct
  end.

(** [GetCondition] called through a pointer to a revision; [None] for a
    pointer to no cell. *)
Definition pointer_GetCondition (h : store.t) (a : loc) (ct : xpv1.ConditionType)
    : option xpv1.Condition :=
  r ← store.cells h !! a; Some (revision_GetCondition (store.conditions h) r ct).

End revision_conditions.

(** ** The image scan workflow

    [.github/workflows/scan.yaml] names the releases to scan and the files
    of the scan results with two substitutions of [sed], which are functions
    of a line of text. *)

Module scan.



(** A character the substitution below replaces. The bracket of the
    command is [[\/.:]]: the slash is written after a backslash, as it is
    the delimiter of the command, and within a bracket a backslash stands
    for itself, so that the bracket holds the backslash, the slash, the dot
    and the colon. *)
Definition separator (c : ascii) : bool :=
  Ascii.eqb c "\" || Ascii.eqb c "/" || Ascii.eqb c "." || Ascii.eqb c ":".

(** [sed 's/[\/.:]/_/g']: every backslash, slash, dot and colon of the line
    becomes an underscore. *)
Fixpoint escape (line : string) : string :=
  match line with
  | EmptyString => EmptyString
  | String c rest => String (if separator c then "_"%char else c) (escape rest)
  end.

(** [escaped_filename], of the line [image/tag] that [echo] prints for an
    image and a tag the shell passes on as they are (words without blanks,
    quotes, backslashes or patterns), and the name of the artifact the
    results are uploaded as. *)
Definition escaped_filename (image tag : string) : string :=
  escape (image +:+ "/" +:+ tag).

Definition artifact_name (image tag : string) : string :=
  "trivy-" +:+ escaped_filename image tag +:+ ".sarif".

End scan.

(** ** Tactics *)

(** The records of a goal, each given by its fields. *)
Ltac destruct_records :=
  repeat match goal with
  | p : Provider.t |- _ => destruct p
  | p : Configuration.t |- _ => destruct p
  | p : ProviderRevision.t |- _ => destruct p
  | p : ConfigurationRevision.t |- _ => destruct p
  | s : ProviderSpec.t |- _ => destruct s
  | s : ConfigurationSpec.t |- _ => destruct s
  | s : PackageSpec.t |- _ => destruct s
  | s : PackageStatus.t |- _ => destruct s
  | s : PackageRevisionSpec.t |- _ => destruct s
  | s : PackageRevisionStatus.t |- _ => destruct s
  end.

(** What the library's [SetConditions] returns is a memory and a status,
    whatever they are. *)
Ltac destruct_library :=
  try match goal with
  | |- context [xpv1.SetConditions ?m ?s ?c] => destruct (xpv1.SetConditions m s c)
  end.

(** A call, run on a receiver given by its fields. *)
Ltac run_call :=
  cbn;
  unfold Provider.SetConditions, Configuration.SetConditions,
    ProviderRevision.SetConditions, ConfigurationRevision.SetConditions;
  cbn; destruct_library.

Ltac named_field H := solve [exfalso; apply H; repeat constructor].

(** The value of a field of the spec or of the status, for a column whose
    path is made of two field names. *)
Ltac field_column object part field :=
  unfold column_value;
  assert (column_path _ = Some [jsonpath.Child part; jsonpath.Child field]) as ->
    by (vm_compute; reflexivity);
  cbn -[json.field]; f_equal;
  destruct (json.field part object) as [x|]; cbn -[json.field]; [|done];
  destruct (json.field field x); cbn; done.

(** * Properties of the accessors *)

(** ** RefNames *)

(** Once the names of the first references are in place, the loop fills in
    the others in their order. *)
Lemma RefNames_loop_app (refs : list corev1.LocalObjectReference) (names : list string) :
  RefNames_loop (length names) refs (names ++ replicate (length refs) "")
  = names ++ (corev1.Name <$> refs).
Proof.
  revert names. induction refs as [|ref rest IH]; intros names.
  { simpl. done. }
  cbn [RefNames_loop length replicate fmap list_fmap].
  rewrite insert_app_r_alt, Nat.sub_diag by lia. cbn [insert list_insert].
  specialize (IH (names ++ [corev1.Name ref])).
  rewrite length_app, Nat.add_1_r, <- !(assoc_L (++)) in IH. exact IH.
Qed.

Lemma RefNames_fmap refs : RefNames refs = corev1.Name <$> refs.
Proof. exact (RefNames_loop_app refs []). Qed.

Example RefNames_of_two :
  RefNames [corev1.mkLocalObjectReference "registry-credentials";
            corev1.mkLocalObjectReference "mirror-credentials"]
  = ["registry-credentials"; "mirror-credentials"].
Proof. reflexivity. Qed.

(** C9. RefNames returns as many strings as there are references, the i-th
    being the name of the i-th reference; of no reference it returns no
    string. *)
Theorem RefNames_names (refs : list corev1.LocalObjectReference) :
  length (RefNames refs) = length refs
  ∧ (∀ i, RefNames refs !! i = corev1.Name <$> refs !! i)
  ∧ RefNames [] = [].
Proof.
  rewrite RefNames_fmap. split_and!.
  - apply length_fmap.
  - intros i. apply list_lookup_fmap.
  - reflexivity.
Qed.

(** ** What a setter changes *)

Section frame.
Context `{!xpv1.Methods}.

Lemma Provider_frame c m p f :
  f ∉ Provider.writes c → Provider.get f (Provider.call c m p).2 = Provider.get f p.
Proof.
  intros Hf. destruct_records.
  destruct c; run_call;
    destruct f as [|f| |f]; try destruct f; first [reflexivity | named_field Hf].
Qed.

Lemma Configuration_frame c m p f :
  f ∉ Configuration.writes c →
  Configuration.get f (Configuration.call c m p).2 = Configuration.get f p.
Proof.
  intros Hf. destruct_records.
  destruct c; run_call;
    destruct f as [|f|f]; try destruct f; first [reflexivity | named_field Hf].
Qed.

Lemma ProviderRevision_frame c m p f :
  f ∉ ProviderRevision.writes c →
  ProviderRevision.get f (ProviderRevision.call c m p).2 = ProviderRevision.get f p.
Proof.
  intros Hf. destruct_records.
  destruct c; run_call;
    destruct f as [|f|f]; try destruct f; first [reflexivity | named_field Hf].
Qed.

Lemma ConfigurationRevision_frame c m p f :
  f ∉ ConfigurationRevision.writes c →
  ConfigurationRevision.get f (ConfigurationRevision.call c m p).2
  = ConfigurationRevision.get f p.
Proof.
  intros Hf. destruct_records.
  destruct c; run_call;
    destruct f as [|f|f]; try destruct f; first [reflexivity | named_field Hf].
Qed.

End frame.

(** C10. A setter of a Provider, a Configuration, a ProviderRevision or a
    ConfigurationRevision leaves every field of the receiver that it does not
    name as it was. The fields named are those of [writes]: one field each,
    the three counters for SetDependencyStatus, none for SetControllerConfigRef
    of a Configuration. *)
Theorem setters_frame `{!xpv1.Methods} (m : xpv1.mem) :
  (∀ c p f, f ∉ Provider.writes c →
     Provider.get f (Provider.call c m p).2 = Provider.get f p)
  ∧ (∀ c p f, f ∉ Configuration.writes c →
     Configuration.get f (Configuration.call c m p).2 = Configuration.get f p)
  ∧ (∀ c p f, f ∉ ProviderRevision.writes c →
     ProviderRevision.get f (ProviderRevision.call c m p).2 = ProviderRevision.get f p)
  ∧ (∀ c p f, f ∉ ConfigurationRevision.writes c →
     ConfigurationRevision.get f (ConfigurationRevision.call c m p).2
     = ConfigurationRevision.get f p).
Proof.
  split_and!; intros c p f Hf.
  - by apply Provider_frame.
  - by apply Configuration_frame.
  - by apply ProviderRevision_frame.
  - by apply ConfigurationRevision_frame.
Qed.

(** SetDependencyStatus on a revision with a source and a desired state:
    both are as before, and so is every field but the three counters. *)
Lemma setters_frame_witness :
  let p := ProviderRevision.SetDesiredState
             (ProviderRevision.SetSource ProviderRevision.zero "registry/provider:v1")
             PackageRevisionActive in
  let c := RevisionSetter.SetDependencyStatus 3 2 1 in
  let f := ProviderRevision.F_Spec PackageRevisionSpec.F_DesiredState in
  (f ∉ ProviderRevision.writes c)
  ∧ ProviderRevision.get f (ProviderRevision.call (H := xpv1.no_conditions) c ∅ p).2
    = PackageRevisionActive.
Proof.
  assert (Hf : ProviderRevision.F_Spec PackageRevisionSpec.F_DesiredState
               ∉ ProviderRevision.writes (RevisionSetter.SetDependencyStatus 3 2 1)).
  { cbn. intros Hin. repeat (apply elem_of_cons in Hin as [Hin|Hin]; [discriminate|]).
    by apply elem_of_nil in Hin. }
  split; [exact Hf|].
  exact (proj1 (proj2 (proj2 (setters_frame (H := xpv1.no_conditions) ∅))) _ _ _ Hf).
Defined.

(** ** Setting and getting *)

(** C6. SetDependencyStatus followed by GetDependencyStatus returns the
    three counters as they were set, on both kinds of revision; they are
    stored in FoundDependencies, InstalledDependencies and
    InvalidDependencies of the status, in this order. *)
Theorem dependency_status_set_get (found installed invalid : int64) :
  (∀ p : ProviderRevision.t,
     let p' := ProviderRevision.SetDependencyStatus p found installed invalid in
     ProviderRevision.GetDependencyStatus p' = (found, installed, invalid)
     ∧ PackageRevisionStatus.FoundDependencies (ProviderRevision.Status p') = found
     ∧ PackageRevisionStatus.InstalledDependencies (ProviderRevision.Status p') = installed
     ∧ PackageRevisionStatus.InvalidDependencies (ProviderRevision.Status p') = invalid)
  ∧ (∀ p : ConfigurationRevision.t,
     let p' := ConfigurationRevision.SetDependencyStatus p found installed invalid in
     ConfigurationRevision.GetDependencyStatus p' = (found, installed, invalid)
     ∧ PackageRevisionStatus.FoundDependencies (ConfigurationRevision.Status p') = found
     ∧ PackageRevisionStatus.InstalledDependencies (ConfigurationRevision.Status p') = installed
     ∧ PackageRevisionStatus.InvalidDependencies (ConfigurationRevision.Status p') = invalid).
Proof. split; intros p; destruct_records; cbn; done. Qed.

Section set_get.
Context `{!xpv1.Methods}.

(** On a Provider every capability returns what was set. *)
Lemma Provider_set_get m (p : Provider.t) c v :
  Package.getter c (Package.call (Package.setter c v) m (Package.OfProvider p)).2 = v.
Proof. destruct_records; destruct c; reflexivity. Qed.

(** On a Configuration so does every capability but ControllerConfigRef. *)
Lemma Configuration_set_get m (p : Configuration.t) c v :
  c ≠ Package.ControllerConfigRef →
  Package.getter c (Package.call (Package.setter c v) m (Package.OfConfiguration p)).2 = v.
Proof. intros Hc. destruct_records; destruct c; first [reflexivity | done]. Qed.

(** The capability setters leave the conditions memory alone. *)
Lemma capability_setter_memory m (pkg : Package.t) c v :
  (Package.call (Package.setter c v) m pkg).1 = m.
Proof. destruct pkg; destruct_records; destruct c; reflexivity. Qed.

(** The conditions of a package are those of the status embedded in it:
    the accessors pass them on to the library. *)
Lemma Package_conditions m (pkg : Package.t) cs ct :
  let '(m', pkg') := Package.call (PackageSetter.SetConditions cs) m pkg in
  let '(m'', status) := xpv1.SetConditions m (Package.conditioned pkg) cs in
  m' = m'' ∧ Package.conditioned pkg' = status
  ∧ Package.GetCondition m' pkg' ct = xpv1.GetCondition m'' status ct.
Proof.
  destruct pkg; destruct_records; cbn;
    unfold Provider.SetConditions, Configuration.SetConditions; cbn;
    destruct_library; done.
Qed.

End set_get.

(** C1, as the code has it. Setting a capability and getting it returns
    the value set for every capability of a Provider, and for every
    capability of a Configuration but ControllerConfigRef: a Configuration
    keeps no controller config reference, its setter does nothing and its
    getter returns nil. The conditions are those the embedded
    ConditionedStatus of the runtime library holds: SetConditions and
    GetCondition pass the call on to it. *)
Theorem package_set_get `{!xpv1.Methods} (m : xpv1.mem) :
  (∀ (p : Provider.t) c v,
     Package.getter c (Package.call (Package.setter c v) m (Package.OfProvider p)).2 = v)
  ∧ (∀ (p : Configuration.t) c v, c ≠ Package.ControllerConfigRef →
     Package.getter c (Package.call (Package.setter c v) m (Package.OfConfiguration p)).2 = v)
  ∧ (∀ (p : Configuration.t) r,
     Configuration.SetControllerConfigRef p r = p
     ∧ Configuration.GetControllerConfigRef (Configuration.SetControllerConfigRef p r) = None)
  ∧ (∀ (pkg : Package.t) cs ct,
     let '(m', pkg') := Package.call (PackageSetter.SetConditions cs) m pkg in
     let '(m'', status) := xpv1.SetConditions m (Package.conditioned pkg) cs in
     m' = m'' ∧ Package.conditioned pkg' = status
     ∧ Package.GetCondition m' pkg' ct = xpv1.GetCondition m'' status ct).
Proof.
  split_and!.
  - intros. apply Provider_set_get.
  - intros. by apply Configuration_set_get.
  - done.
  - intros. apply Package_conditions.
Qed.

(** The source of a Configuration is a capability other than
    ControllerConfigRef, and is returned as set. *)
Lemma package_set_get_witness :
  Package.Source ≠ Package.ControllerConfigRef
  ∧ Package.getter Package.Source
      (Package.call (H := xpv1.no_conditions)
         (Package.setter Package.Source "registry/configuration:v1") ∅
         (Package.OfConfiguration Configuration.zero)).2
    = "registry/configuration:v1".
Proof.
  assert (Hc : Package.Source ≠ Package.ControllerConfigRef) by discriminate.
  split; [exact Hc|].
  exact (proj1 (proj2 (package_set_get (H := xpv1.no_conditions) ∅)) _ _ _ Hc).
Defined.

(** C1, as stated, fails on a Configuration: the controller config
    reference that was set is not returned. *)
Lemma Configuration_forgets_controller_config_ref :
  ∃ (p : Configuration.t) (r : option ControllerConfigReference),
    Configuration.GetControllerConfigRef (Configuration.SetControllerConfigRef p r) ≠ r.
Proof.
  exists Configuration.zero, (Some (mkControllerConfigReference "debug")). discriminate.
Qed.

(** ** The activation policy *)

(** C7, as the code has it. Two activation policies are declared,
    "Automatic" and "Manual"; the policy of a package is an optional string,
    which the accessors store and return as it is given, whatever the
    string; a package on which no policy was set returns nil: the accessors
    apply no default. *)
Theorem activation_policy_as_set `{!xpv1.Methods} (m : xpv1.mem) :
  AutomaticActivation = "Automatic"
  ∧ ManualActivation = "Manual"
  ∧ AutomaticActivation ≠ ManualActivation
  ∧ (∀ (pkg : Package.t) (a : option RevisionActivationPolicy),
     Package.getter Package.ActivationPolicy
       (Package.call (Package.setter Package.ActivationPolicy a) m pkg).2 = a)
  ∧ Provider.GetActivationPolicy Provider.zero = None
  ∧ Configuration.GetActivationPolicy Configuration.zero = None.
Proof.
  split_and!; try done.
  intros [p|p] a.
  - apply Provider_set_get.
  - by apply Configuration_set_get.
Qed.

(** C7, as stated, fails: a policy that is neither Automatic nor Manual is
    kept as it is, and a package with no policy set reports none, not
    Automatic. *)
Lemma activation_policy_neither :
  let p := Provider.SetActivationPolicy Provider.zero (Some "Sometimes") in
  Provider.GetActivationPolicy p = Some "Sometimes"
  ∧ "Sometimes" ≠ AutomaticActivation
  ∧ "Sometimes" ≠ ManualActivation
  ∧ Provider.GetActivationPolicy Provider.zero ≠ Some AutomaticActivation.
Proof. split_and!; done. Qed.

(** ** The dependency counters *)

Section counters.
Context `{!xpv1.Methods}.

(** A call other than SetDependencyStatus leaves the counters as they
    are. *)
Lemma call_keeps_dependency_status c m r :
  (∀ found installed invalid, c ≠ RevisionSetter.SetDependencyStatus found installed invalid) →
  PackageRevision.GetDependencyStatus (PackageRevision.call c m r).2
  = PackageRevision.GetDependencyStatus r.
Proof.
  intros Hc. destruct r as [p|p]; destruct_records;
    (destruct c; [run_call; reflexivity.. | by destruct (Hc found installed invalid) | | | | |]);
    reflexivity.
Qed.

(** SetDependencyStatus makes the counters what it is given. *)
Lemma call_sets_dependency_status found installed invalid m r :
  PackageRevision.GetDependencyStatus
    (PackageRevision.call (RevisionSetter.SetDependencyStatus found installed invalid) m r).2
  = (found, installed, invalid).
Proof. destruct r as [p|p]; destruct_records; reflexivity. Qed.

Lemma reachable_bounded m r :
  reach.reachable reach.in_order m r →
  reach.bounded (PackageRevision.GetDependencyStatus r).
Proof.
  induction 1 as [m|m|c m r Hr IH Hc].
  - cbn. lia.
  - cbn. lia.
  - destruct c;
      try (rewrite call_keeps_dependency_status by discriminate; exact IH).
    rewrite call_sets_dependency_status. exact Hc.
Qed.

End counters.

(** C2, as the code has it. The counters of a revision are those of the
    last call of SetDependencyStatus, which stores what it is given, and are
    zero before the first. So in every state reached from the zero value by
    calls of setters whose dependency counters are in order, GetDependencyStatus
    returns counters with 0 <= invalid <= found and 0 <= installed <= found. *)
Theorem dependency_status_bounded `{!xpv1.Methods} (m : xpv1.mem) (r : PackageRevision.t) :
  reach.reachable reach.in_order m r →
  reach.bounded (PackageRevision.GetDependencyStatus r)
  ∧ (∀ c, PackageRevision.GetDependencyStatus (PackageRevision.call c m r).2
          = match c with
            | RevisionSetter.SetDependencyStatus found installed invalid =>
                (found, installed, invalid)
            | _ => PackageRevision.GetDependencyStatus r
            end)
  ∧ ProviderRevision.GetDependencyStatus ProviderRevision.zero = (0, 0, 0)%Z
  ∧ ConfigurationRevision.GetDependencyStatus ConfigurationRevision.zero = (0, 0, 0)%Z.
Proof.
  intros Hr. split_and!; [by apply (reachable_bounded m)| |reflexivity..].
  intros c. destruct c;
    try (rewrite call_keeps_dependency_status by discriminate; reflexivity).
  apply call_sets_dependency_status.
Qed.

(** A revision with three dependencies found, two of them installed and
    one invalid, whose desired state is then set. *)
Lemma dependency_status_bounded_witness :
  let calls := [RevisionSetter.SetDependencyStatus 3 2 1;
                RevisionSetter.SetDesiredState PackageRevisionActive] in
  let r := (PackageRevision.calls (H := xpv1.no_conditions) calls ∅
              (PackageRevision.OfProviderRevision ProviderRevision.zero)).2 in
  reach.reachable (H := xpv1.no_conditions) reach.in_order ∅ r
  ∧ reach.bounded (PackageRevision.GetDependencyStatus r).
Proof.
  assert (Hr : reach.reachable (H := xpv1.no_conditions) reach.in_order ∅
    (PackageRevision.calls (H := xpv1.no_conditions)
       [RevisionSetter.SetDependencyStatus 3 2 1;
        RevisionSetter.SetDesiredState PackageRevisionActive] ∅
       (PackageRevision.OfProviderRevision ProviderRevision.zero)).2).
  { assert (Hcounters : reach.in_order (RevisionSetter.SetDependencyStatus 3 2 1))
      by (cbn; lia).
    exact (reach.step (H := xpv1.no_conditions) reach.in_order
             (RevisionSetter.SetDesiredState PackageRevisionActive) _ _
             (reach.step (H := xpv1.no_conditions) reach.in_order
                (RevisionSetter.SetDependencyStatus 3 2 1) _ _
                (reach.provider_zero reach.in_order ∅) Hcounters) I). }
  split; [exact Hr|].
  exact (proj1 (dependency_status_bounded (H := xpv1.no_conditions) ∅ _ Hr)).
Defined.

(** C2, as stated, fails: one call of SetDependencyStatus on a new
    revision leaves it with more installed than found dependencies and a
    negative number of invalid ones. *)
Lemma dependency_status_out_of_order :
  let r := ProviderRevision.SetDependencyStatus ProviderRevision.zero 1 2 (-1) in
  reach.reachable (H := xpv1.no_conditions) (λ _, True) ∅
    (PackageRevision.OfProviderRevision r)
  ∧ ProviderRevision.GetDependencyStatus r = (1, 2, -1)%Z
  ∧ ¬ reach.bounded (ProviderRevision.GetDependencyStatus r).
Proof.
  split_and!.
  - exact (reach.step (H := xpv1.no_conditions) (λ _, True)
             (RevisionSetter.SetDependencyStatus 1 2 (-1)) _ _
             (reach.provider_zero (λ _, True) ∅) I).
  - reflexivity.
  - cbn. lia.
Qed.

(** ** Revision lists *)

Lemma store_new_fresh v h :
  store.cells h !! (store.new v h).1 = None
  ∧ store.cells (store.new v h).2 = <[(store.new v h).1 := v]> (store.cells h)
  ∧ store.conditions (store.new v h).2 = store.conditions h.
Proof. cbn. split_and!; [|done..]. apply not_elem_of_dom, is_fresh. Qed.

(** The step of the loop invariant: a copy [a] of the cell at
    [base + length done] was made in [h1], and [addrs] are copies made after
    it of the cells that follow. *)
Lemma copies_cons base (h h1 h' : store.t) a v addrs :
  store.cells h !! base = Some v →
  store.cells h !! a = None →
  store.cells h1 = <[a := v]> (store.cells h) →
  store.conditions h1 = store.conditions h →
  (∀ k, k < length addrs → is_Some (store.cells h !! (base + S k))) →
  copies (base + 1) h1 h' addrs →
  copies base h h' (a :: addrs).
Proof.
  intros Hv Hfresh Hcells Hconds Halloc (Hnd & Hnew & Hcopy & Hsub & Hconds').
  assert (Hsub1 : store.cells h ⊆ store.cells h1).
  { rewrite Hcells. by apply insert_subseteq. }
  unfold copies. split_and!.
  - constructor; [|done]. intros Hin. apply Hnew in Hin.
    rewrite Hcells, lookup_insert_eq in Hin. done.
  - intros a' [->|Hin]%elem_of_cons; [done|].
    apply Hnew in Hin. eapply lookup_weaken_None; eauto.
  - intros [|k] a' Hk; cbn in Hk.
    + injection Hk as <-. rewrite Nat.add_0_r, Hv.
      eapply lookup_weaken; [|exact Hsub]. rewrite Hcells. apply lookup_insert_eq.
    + rewrite (Hcopy k a' Hk).
      destruct (Halloc k) as [v' Hv']; [by eapply lookup_lt_Some|].
      replace (base + 1 + k) with (base + S k) by lia.
      rewrite Hv'. eapply lookup_weaken; eauto.
  - by etrans.
  - congruence.
Qed.

Lemma copies_nil base h : copies base h h [].
Proof.
  unfold copies. split_and!; try done.
  - constructor.
  - intros a Ha. by apply elem_of_nil in Ha.
Qed.

(** The loop of GetRevisions, [done] being the pointers stored so far: it
    runs to its end when the cells left are ProviderRevisions, and stores
    pointers to copies of them. *)
Lemma ProviderRevisionList_range n : ∀ base done h,
  (∀ k, k < n → ∃ r, store.cells h !! (base + (length done + k))
                     = Some (PackageRevision.OfProviderRevision r)) →
  ∃ addrs h',
    ProviderRevisionList.GetRevisions_range base n (length done) (done ++ replicate n None) h
    = Some (done ++ (Some <$> addrs), h')
    ∧ length addrs = n
    ∧ copies (base + length done) h h' addrs.
Proof.
  induction n as [|n IH]; intros base done h Halloc.
  { exists [], h. cbn. rewrite app_nil_r. auto using copies_nil. }
  cbn [ProviderRevisionList.GetRevisions_range replicate].
  destruct (Halloc 0) as [r Hr]; [lia|]. rewrite Nat.add_0_r in Hr. rewrite Hr.
  destruct (store_new_fresh (PackageRevision.OfProviderRevision r) h)
    as (Hfresh & Hcells & Hconds).
  destruct (store.new _ h) as [a h1]. cbn [fst snd] in *.
  rewrite insert_app_r_alt, Nat.sub_diag by lia. cbn [insert list_insert].
  destruct (IH base (done ++ [Some a]) h1) as (addrs & h' & Hrun & Hlen & Hcopies).
  { intros k Hk. destruct (Halloc (S k)) as [r' Hr']; [lia|]. exists r'.
    rewrite length_app. cbn [length].
    replace (base + (length done + 1 + k)) with (base + (length done + S k)) by lia.
    eapply lookup_weaken; [exact Hr'|]. rewrite Hcells. by apply insert_subseteq. }
  rewrite length_app in Hrun, Hcopies. cbn [length] in Hrun, Hcopies.
  rewrite Nat.add_1_r, <- (assoc_L (++)) in Hrun. cbn [app] in Hrun.
  exists (a :: addrs), h'. split_and!.
  - rewrite Hrun, <- (assoc_L (++)). done.
  - cbn. lia.
  - eapply copies_cons; eauto.
    + intros k Hk. destruct (Halloc (S k)) as [r' Hr']; [lia|].
      replace (base + length done + S k) with (base + (length done + S k)) by lia. eauto.
    + by rewrite Nat.add_assoc in Hcopies.
Qed.

Lemma ConfigurationRevisionList_range n : ∀ base done h,
  (∀ k, k < n → ∃ r, store.cells h !! (base + (length done + k))
                     = Some (PackageRevision.OfConfigurationRevision r)) →
  ∃ addrs h',
    ConfigurationRevisionList.GetRevisions_range base n (length done)
      (done ++ replicate n None) h
    = Some (done ++ (Some <$> addrs), h')
    ∧ length addrs = n
    ∧ copies (base + length done) h h' addrs.
Proof.
  induction n as [|n IH]; intros base done h Halloc.
  { exists [], h. cbn. rewrite app_nil_r. auto using copies_nil. }
  cbn [ConfigurationRevisionList.GetRevisions_range replicate].
  destruct (Halloc 0) as [r Hr]; [lia|]. rewrite Nat.add_0_r in Hr. rewrite Hr.
  destruct (store_new_fresh (PackageRevision.OfConfigurationRevision r) h)
    as (Hfresh & Hcells & Hconds).
  destruct (store.new _ h) as [a h1]. cbn [fst snd] in *.
  rewrite insert_app_r_alt, Nat.sub_diag by lia. cbn [insert list_insert].
  destruct (IH base (done ++ [Some a]) h1) as (addrs & h' & Hrun & Hlen & Hcopies).
  { intros k Hk. destruct (Halloc (S k)) as [r' Hr']; [lia|]. exists r'.
    rewrite length_app. cbn [length].
    replace (base + (length done + 1 + k)) with (base + (length done + S k)) by lia.
    eapply lookup_weaken; [exact Hr'|]. rewrite Hcells. by apply insert_subseteq. }
  rewrite length_app in Hrun, Hcopies. cbn [length] in Hrun, Hcopies.
  rewrite Nat.add_1_r, <- (assoc_L (++)) in Hrun. cbn [app] in Hrun.
  exists (a :: addrs), h'. split_and!.
  - rewrite Hrun, <- (assoc_L (++)). done.
  - cbn. lia.
  - eapply copies_cons; eauto.
    + intros k Hk. destruct (Halloc (S k)) as [r' Hr']; [lia|].
      replace (base + length done + S k) with (base + (length done + S k)) by lia. eauto.
    + by rewrite Nat.add_assoc in Hcopies.
Qed.

(** GetRevisions returns pointers to copies of the items, one per item and
    in their order. *)
Lemma GetRevisions_copies_items l h :
  PackageRevisionList.allocated l h →
  ∃ addrs h',
    PackageRevisionList.GetRevisions l h = Some (Some <$> addrs, h')
    ∧ length addrs = go.len (PackageRevisionList.Items l)
    ∧ copies (go.ptr (PackageRevisionList.Items l)) h h' addrs.
Proof.
  intros Halloc. destruct l as [l|l]; cbn in *.
  - destruct (ProviderRevisionList_range (go.len (ProviderRevisionList.Items l))
                (go.ptr (ProviderRevisionList.Items l)) [] h) as (addrs & h' & Hrun & Hlen & Hc).
    { intros k Hk. apply Halloc, Hk. }
    cbn in Hrun, Hc. rewrite Nat.add_0_r in Hc. by exists addrs, h'.
  - destruct (ConfigurationRevisionList_range (go.len (ConfigurationRevisionList.Items l))
                (go.ptr (ConfigurationRevisionList.Items l)) [] h)
      as (addrs & h' & Hrun & Hlen & Hc).
    { intros k Hk. apply Halloc, Hk. }
    cbn in Hrun, Hc. rewrite Nat.add_0_r in Hc. by exists addrs, h'.
Qed.

(** The items of an allocated list are cells of the store. *)
Lemma allocated_item l h i :
  PackageRevisionList.allocated l h → i < go.len (PackageRevisionList.Items l) →
  is_Some (store.cells h !! PackageRevisionList.item l i).
Proof.
  intros Halloc Hi. destruct l as [l|l]; destruct (Halloc i Hi) as [r Hr]; eauto.
Qed.

(** Two ProviderRevisions at the addresses 1 and 2: the pointers returned
    are the new addresses 3 and 4, and the cells at 1 and 2 stay. *)
Example GetRevisions_of_two :
  let r1 := PackageRevision.OfProviderRevision
              (ProviderRevision.SetRevision ProviderRevision.zero 1) in
  let r2 := PackageRevision.OfProviderRevision
              (ProviderRevision.SetRevision ProviderRevision.zero 2) in
  let h := store.mk {[ 1 := r1; 2 := r2 ]} ∅ in
  let l := ProviderRevisionList.mk (go.mkSlice 1 2 2) in
  ProviderRevisionList.GetRevisions l h
  = Some ([Some 3; Some 4], store.mk {[ 1 := r1; 2 := r2; 3 := r1; 4 := r2 ]} ∅).
Proof. vm_compute. reflexivity. Qed.

(** What a call does to the conditions. SetConditions hands the memory and
    the slice header of the receiver to the library; every other setter
    leaves the memory and the header as they are. *)
Lemma call_conditions `{!xpv1.Methods} c m r :
  match c with
  | RevisionSetter.SetConditions cnds =>
      (PackageRevision.call c m r).1
      = (xpv1.SetConditions m (revision_conditioned r) cnds).1
  | _ =>
      (PackageRevision.call c m r).1 = m
      ∧ revision_conditioned (PackageRevision.call c m r).2 = revision_conditioned r
  end.
Proof. destruct r as [p|p]; destruct_records; destruct c; run_call; done. Qed.

(** GetCondition reads the memory through the slice header of the
    revision. *)
Lemma revision_GetCondition_conditioned `{!xpv1.Methods} m r ct :
  revision_GetCondition m r ct = xpv1.GetCondition m (revision_conditioned r) ct.
Proof. by destruct r. Qed.

(** C4. GetRevisions of a ProviderRevisionList or ConfigurationRevisionList
    whose items lie in the store returns as many pointers as there are
    items. The i-th points to a variable of its own, new and distinct from
    the others, that holds a copy of Items[i] equal to it field for field.
    The copy is a copy of the struct: its conditions are the slice header of
    the item, over the same array. A setter called through a returned
    pointer changes the copy and leaves the struct of every item as it is.
    A setter other than SetConditions leaves the conditions memory alone as
    well, so that every item reads the conditions it read before.
    SetConditions runs the library's method on the conditions memory with
    the slice header of the item: what it writes there, it writes to the
    array the item reads. *)
Theorem GetRevisions_owned_copies `{!xpv1.Methods}
    (l : PackageRevisionList.t) (h : store.t) :
  PackageRevisionList.allocated l h →
  ∃ addrs h',
    PackageRevisionList.GetRevisions l h = Some (Some <$> addrs, h')
    ∧ length addrs = go.len (PackageRevisionList.Items l)
    ∧ NoDup addrs
    ∧ (∀ i a, addrs !! i = Some a →
         store.cells h !! a = None
         ∧ store.cells h' !! a = store.cells h !! PackageRevisionList.item l i)
    ∧ (∀ i, i < go.len (PackageRevisionList.Items l) →
         store.cells h' !! PackageRevisionList.item l i
         = store.cells h !! PackageRevisionList.item l i)
    ∧ store.conditions h' = store.conditions h
    ∧ (∀ c i a, addrs !! i = Some a →
         ∃ r h'',
           store.cells h !! PackageRevisionList.item l i = Some r
           ∧ store.call c a h' = Some h''
           ∧ store.cells h'' !! a = Some (PackageRevision.call c (store.conditions h) r).2
           ∧ (∀ j, j < go.len (PackageRevisionList.Items l) →
                store.cells h'' !! PackageRevisionList.item l j
                = store.cells h !! PackageRevisionList.item l j)
           ∧ match c with
             | RevisionSetter.SetConditions cnds =>
                 store.conditions h''
                 = (xpv1.SetConditions (store.conditions h) (revision_conditioned r) cnds).1
             | _ =>
                 store.conditions h'' = store.conditions h
                 ∧ ∀ j ct, j < go.len (PackageRevisionList.Items l) →
                     pointer_GetCondition h'' (PackageRevisionList.item l j) ct
                     = pointer_GetCondition h (PackageRevisionList.item l j) ct
             end).
Proof.
  intros Halloc.
  destruct (GetRevisions_copies_items l h Halloc)
    as (addrs & h' & Hrun & Hlen & Hnd & Hnew & Hcopy & Hsub & Hconds).
  assert (Hitems : ∀ i, i < go.len (PackageRevisionList.Items l) →
            store.cells h' !! PackageRevisionList.item l i
            = store.cells h !! PackageRevisionList.item l i).
  { intros i Hi. destruct (allocated_item l h i Halloc Hi) as [v Hv].
    rewrite Hv. eapply lookup_weaken; eauto. }
  exists addrs, h'. split_and!; try done.
  - intros i a Ha. split; [apply Hnew; by eapply list_elem_of_lookup_2|].
    by apply Hcopy.
  - intros c k a Hk.
    assert (Ha : a ∈ addrs) by by eapply list_elem_of_lookup_2.
    assert (Hk' : k < go.len (PackageRevisionList.Items l)).
    { rewrite <- Hlen. by eapply lookup_lt_Some. }
    destruct (allocated_item l h k Halloc Hk') as [r Hr].
    assert (Ha' : store.cells h' !! a = Some r).
    { rewrite (Hcopy k a Hk). exact Hr. }
    pose proof (call_conditions c (store.conditions h) r) as Hlibrary.
    unfold store.call. rewrite Ha', Hconds.
    destruct (PackageRevision.call c (store.conditions h) r) as [m' r'] eqn:Hcall.
    assert (Hothers : ∀ j, j < go.len (PackageRevisionList.Items l) →
              <[a := r']> (store.cells h') !! PackageRevisionList.item l j
              = store.cells h !! PackageRevisionList.item l j).
    { intros j Hj. rewrite lookup_insert_ne; [by apply Hitems|].
      intros ->. destruct (allocated_item l h j Halloc Hj) as [v Hv].
      rewrite (Hnew _ Ha) in Hv. done. }
    exists r, (store.mk (<[a := r']> (store.cells h')) m'). cbn [store.cells store.conditions].
    rewrite Hcall. split_and!; try done.
    + apply lookup_insert_eq.
    + cbn [fst snd] in Hlibrary.
      destruct c; try exact Hlibrary;
        (destruct Hlibrary as [-> _]; split; [done|]; intros j ct Hj;
         unfold pointer_GetCondition; cbn [store.cells store.conditions];
         by rewrite Hothers).
Qed.

(** A list of two ProviderRevisions, at the addresses 1 and 2 of a store
    that holds nothing else. *)
Lemma GetRevisions_owned_copies_witness :
  let r1 := ProviderRevision.SetRevision ProviderRevision.zero 1 in
  let r2 := ProviderRevision.SetRevision ProviderRevision.zero 2 in
  let h := store.mk {[ 1 := PackageRevision.OfProviderRevision r1;
                       2 := PackageRevision.OfProviderRevision r2 ]} ∅ in
  let l := PackageRevisionList.OfProviderRevisionList
             (ProviderRevisionList.mk (go.mkSlice 1 2 2)) in
  PackageRevisionList.allocated l h
  ∧ ∃ addrs h',
      PackageRevisionList.GetRevisions l h = Some (Some <$> addrs, h')
      ∧ length addrs = 2.
Proof.
  cbv zeta.
  match goal with |- ?A ∧ _ => assert (Halloc : A) end.
  { intros i Hi. destruct i as [|[|i]]; [eexists; reflexivity..|cbn in Hi; lia]. }
  split; [exact Halloc|].
  destruct (GetRevisions_owned_copies (H := xpv1.no_conditions) _ _ Halloc)
    as (addrs & h' & Hrun & Hlen & _).
  exists addrs, h'. split; [exact Hrun|exact Hlen].
Defined.

(** The library's methods on a revision that has no conditions yet:
    SetConditions appends, and GetCondition then finds the condition of the
    type asked for, or reports Unknown. Setting a condition that differs in
    its time only changes nothing. *)
Example runtime_sets_and_gets :
  let library := xpv1.runtime (λ n, 2 * n) in
  let unhealthy := xpv1.mkCondition "Healthy" "False" "2023-07-01T00:00:00Z"
                     "UnhealthyPackageRevision" "" in
  let later := xpv1.mkCondition "Healthy" "False" "2023-07-02T00:00:00Z"
                 "UnhealthyPackageRevision" "" in
  let r := PackageRevision.OfConfigurationRevision ConfigurationRevision.zero in
  let st := PackageRevision.calls (H := library)
              [RevisionSetter.SetConditions [unhealthy];
               RevisionSetter.SetConditions [later]] ∅ r in
  revision_GetCondition (H := library) ∅ r "Healthy"
  = xpv1.mkCondition "Healthy" "Unknown" "" "" ""
  ∧ revision_GetCondition (H := library) st.1 st.2 "Healthy" = unhealthy
  ∧ revision_GetCondition (H := library) st.1 st.2 "Installed"
    = xpv1.mkCondition "Installed" "Unknown" "" "" "".
Proof. cbv zeta. split_and!; vm_compute; reflexivity. Qed.

(** The copy of a revision shares the array of its conditions with the item
    it was copied from. A list holds one ProviderRevision, in the cell 1,
    whose conditions are the slice of length one at the address 7 of the
    conditions memory: Healthy is False. GetRevisions returns one pointer,
    to the new cell 2. SetConditions of Healthy/True through that pointer
    finds the condition of type Healthy and overwrites it where it is, at
    the address 7, and the item in the cell 1, whose struct is as it was,
    reads Healthy as True from then on. *)
Lemma GetRevisions_shares_conditions :
  let library := xpv1.runtime (λ n, 2 * n) in
  let unhealthy := xpv1.mkCondition "Healthy" "False" "2023-07-01T00:00:00Z"
                     "UnhealthyPackageRevision" "" in
  let healthy := xpv1.mkCondition "Healthy" "True" "2023-07-02T00:00:00Z"
                   "HealthyPackageRevision" "" in
  let r := PackageRevision.OfProviderRevision
             (ProviderRevision.assign_status
                (PackageRevisionStatus.set_ConditionedStatus
                   (xpv1.mkConditionedStatus (go.mkSlice 7 1 1)))
                ProviderRevision.zero) in
  let h := store.mk {[ 1 := r ]} {[ 7 := unhealthy ]} in
  let l := PackageRevisionList.OfProviderRevisionList
             (ProviderRevisionList.mk (go.mkSlice 1 1 1)) in
  ∃ h' h'',
    PackageRevisionList.GetRevisions l h = Some ([Some 2], h')
    ∧ store.call (H := library) (RevisionSetter.SetConditions [healthy]) 2 h' = Some h''
    ∧ store.cells h'' !! PackageRevisionList.item l 0 = Some r
    ∧ pointer_GetCondition (H := library) h (PackageRevisionList.item l 0) "Healthy"
      = Some unhealthy
    ∧ pointer_GetCondition (H := library) h'' (PackageRevisionList.item l 0) "Healthy"
      = Some healthy.
Proof.
  cbv zeta. eexists _, _. split_and!; [vm_compute; reflexivity..].
Qed.

(** ** Retention *)

(** The inactive revisions, oldest first, are the inactive ones among the
    revisions. *)
Lemma inactive_sorted revs :
  StronglySorted retention.older (retention.inactive revs)
  ∧ retention.inactive revs ≡ₚ filter retention.is_inactive revs.
Proof.
  split.
  - apply StronglySorted_merge_sort; apply _.
  - apply merge_sort_Permutation.
Qed.

(** Retention deletes a prefix of them, and keeps the rest. *)
Lemma excess_kept limit revs :
  retention.excess limit revs ++ retention.kept limit revs = retention.inactive revs.
Proof.
  unfold retention.kept.
  assert (Htake : ∀ n, take n (retention.inactive revs)
                       ++ drop (length (take n (retention.inactive revs)))
                            (retention.inactive revs)
                       = retention.inactive revs).
  { intros n. rewrite length_take.
    destruct (decide (n ≤ length (retention.inactive revs))) as [Hn|Hn].
    - rewrite Nat.min_l by done. apply take_drop.
    - rewrite Nat.min_r, take_ge, drop_ge, app_nil_r by lia. done. }
  unfold retention.excess. destruct limit as [l|]; [|done].
  cbv zeta. case_decide; [apply Htake|done].
Qed.

(** With a limit that is not negative, retention keeps the inactive
    revisions when they are at most the limit, and as many as the limit
    otherwise. *)
Lemma kept_length (l : int64) revs :
  (0 ≤ l)%Z →
  Z.of_nat (length (retention.kept (Some l) revs))
  = Z.min l (Z.of_nat (length (filter retention.is_inactive revs))).
Proof.
  intros Hl. unfold retention.kept, retention.excess. cbv zeta.
  rewrite <- (Permutation_length (proj2 (inactive_sorted revs))).
  case_decide.
  - rewrite length_drop, length_take. lia.
  - rewrite length_drop. cbn [length]. lia.
Qed.

(** C3. Retention enforcement deletes only revisions of the package whose
    desired state is Inactive, so never one whose desired state is Active,
    whatever the history limit. It deletes them oldest first by revision
    number, and every revision it deletes is at most as recent as every
    inactive revision it keeps; those it deletes and those it keeps are the
    inactive revisions. Under a limit that is not negative it keeps the
    inactive revisions up to the limit. *)
Theorem retention_spares_active (pkg : Package.t) (revs : list PackageRevision.t) :
  let limit := Package.getter Package.RevisionHistoryLimit pkg in
  let deleted := retention.enforce pkg revs in
  let kept := retention.kept limit revs in
  (∀ r, r ∈ deleted →
     r ∈ revs ∧ PackageRevision.GetDesiredState r = PackageRevisionInactive)
  ∧ (∀ r, PackageRevision.GetDesiredState r = PackageRevisionActive → r ∉ deleted)
  ∧ StronglySorted retention.older deleted
  ∧ (∀ d k, d ∈ deleted → k ∈ kept → retention.older d k)
  ∧ deleted ++ kept ≡ₚ filter retention.is_inactive revs
  ∧ (∀ l : int64, limit = Some l → (0 ≤ l)%Z →
       Z.of_nat (length kept)
       = Z.min l (Z.of_nat (length (filter retention.is_inactive revs)))).
Proof.
  cbv zeta. unfold retention.enforce.
  set (limit := Package.getter Package.RevisionHistoryLimit pkg).
  destruct (inactive_sorted revs) as [Hsorted Hperm].
  pose proof (excess_kept limit revs) as Happ.
  rewrite <- Happ in Hsorted, Hperm.
  assert (Hdel : ∀ r, r ∈ retention.excess limit revs →
            r ∈ revs ∧ PackageRevision.GetDesiredState r = PackageRevisionInactive).
  { intros r Hr.
    assert (Hin : r ∈ filter retention.is_inactive revs).
    { rewrite <- Hperm. apply elem_of_app. by left. }
    apply list_elem_of_filter in Hin as [Hstate Hin]. done. }
  split_and!.
  - exact Hdel.
  - intros r Hactive Hr. apply Hdel in Hr as [_ Hr].
    rewrite Hactive in Hr. discriminate.
  - by eapply StronglySorted_app_1_l.
  - intros d k Hd Hk. by eapply StronglySorted_app_1_elem_of.
  - exact Hperm.
  - intros l Hlimit Hl. rewrite Hlimit. by apply kept_length.
Qed.

(** Three revisions under a limit of one: the two older ones are inactive
    and the older of them is deleted. *)
Lemma retention_spares_active_witness :
  let rev n state :=
    PackageRevision.OfProviderRevision
      (ProviderRevision.SetDesiredState
         (ProviderRevision.SetRevision ProviderRevision.zero n) state) in
  let revs := [rev 2%Z PackageRevisionInactive; rev 3%Z PackageRevisionActive;
               rev 1%Z PackageRevisionInactive] in
  let pkg := Package.OfProvider (Provider.SetRevisionHistoryLimit Provider.zero (Some 1%Z)) in
  retention.enforce pkg revs = [rev 1%Z PackageRevisionInactive]
  ∧ PackageRevision.GetDesiredState (rev 1%Z PackageRevisionInactive)
    = PackageRevisionInactive.
Proof.
  cbv zeta.
  match goal with |- ?l = [?r] ∧ _ => assert (Hdeleted : l = [r]) by (vm_compute; reflexivity) end.
  split; [exact Hdeleted|].
  eapply (proj1 (retention_spares_active _ _)).
  rewrite Hdeleted. apply list_elem_of_here.
Defined.

(** ** The desired state *)

Lemma json_lookup_In name fields v :
  json.lookup name fields = Some v → In (name, v) fields.
Proof.
  induction fields as [|[k x] rest IH]; [done|]. cbn.
  destruct (String.eqb_spec k name) as [->|Hk]; [|by right; apply IH].
  intros [= ->]. by left.
Qed.

Lemma int64b_is_int64 z : go.int64b z = true ↔ go.is_int64 z.
Proof. unfold go.int64b, go.is_int64. rewrite andb_true_iff, Z.leb_le, Z.ltb_lt. done. Qed.

(** A spec the schema holds valid has a desired state, which is a string. *)
Lemma valid_spec_desired_state fields :
  openapi.valid crd.spec (json.Object fields) = true →
  ∃ s, json.lookup "desiredState" fields = Some (json.String s).
Proof.
  intros Hvalid. apply andb_prop in Hvalid as [Hrequired Hfields].
  cbn [forallb] in Hrequired. apply andb_prop in Hrequired as [Hstate _].
  unfold json.has in Hstate.
  destruct (json.lookup "desiredState" fields) as [v|] eqn:Hv; [|discriminate].
  rewrite forallb_forall in Hfields.
  specialize (Hfields _ (json_lookup_In _ _ _ Hv)). cbn in Hfields.
  destruct v; try discriminate. eauto.
Qed.

(** The schema rejects a spec with no desired state, and one whose desired
    state is not a string. *)
Example schema_wants_desired_state :
  openapi.valid crd.spec
    (json.Object [("image", json.String "registry/function:v1");
                  ("revision", json.Number 7)]) = false
  ∧ openapi.valid crd.spec
      (json.Object [("desiredState", json.Bool true);
                    ("image", json.String "registry/function:v1");
                    ("revision", json.Number 7)]) = false.
Proof. split; reflexivity. Qed.

(** C5, as the code has it. The desired state of a revision is a string:
    SetDesiredState stores any string, which GetDesiredState returns, on
    both kinds of revision; the schema requires the field and requires it to
    be a string, and holds a revision valid whatever the string. Active and
    Inactive are the two values the schema documents. *)
Theorem desired_state_any_string (s : PackageRevisionDesiredState) :
  (∀ p, ProviderRevision.GetDesiredState (ProviderRevision.SetDesiredState p s) = s)
  ∧ (∀ p, ConfigurationRevision.GetDesiredState
            (ConfigurationRevision.SetDesiredState p s) = s)
  ∧ (∀ image revision, go.is_int64 revision →
       openapi.valid crd.openAPIV3Schema
         (json.Object
            [("spec", json.Object [("desiredState", json.String s);
                                   ("image", json.String image);
                                   ("revision", json.Number revision)])]) = true)
  ∧ (∀ fields, openapi.valid crd.spec (json.Object fields) = true →
       ∃ s', json.lookup "desiredState" fields = Some (json.String s')).
Proof.
  split_and!.
  - intros p. destruct_records. reflexivity.
  - intros p. destruct_records. reflexivity.
  - intros image revision Hrevision. cbn -[go.int64b].
    by rewrite (proj2 (int64b_is_int64 revision) Hrevision).
  - apply valid_spec_desired_state.
Qed.

(** A revision whose desired state is Active, with the revision number 7. *)
Lemma desired_state_any_string_witness :
  go.is_int64 7
  ∧ openapi.valid crd.openAPIV3Schema
      (json.Object
         [("spec", json.Object [("desiredState", json.String PackageRevisionActive);
                                ("image", json.String "registry/function:v1");
                                ("revision", json.Number 7)])]) = true.
Proof.
  assert (Hrevision : go.is_int64 7) by (unfold go.is_int64; lia).
  split; [exact Hrevision|].
  exact (proj1 (proj2 (proj2 (desired_state_any_string PackageRevisionActive)))
           "registry/function:v1" 7%Z Hrevision).
Defined.

(** C5, as stated, fails: a desired state that is neither Active nor
    Inactive is stored by SetDesiredState and held valid by the schema. *)
Lemma desired_state_neither :
  let p := ProviderRevision.SetDesiredState ProviderRevision.zero "Paused" in
  ProviderRevision.GetDesiredState p = "Paused"
  ∧ "Paused" ≠ PackageRevisionActive
  ∧ "Paused" ≠ PackageRevisionInactive
  ∧ openapi.valid crd.openAPIV3Schema
      (json.Object
         [("spec", json.Object [("desiredState", json.String "Paused");
                                ("image", json.String "registry/function:v1");
                                ("revision", json.Number 7)])]) = true.
Proof. split_and!; done. Qed.

(** ** The columns of a listing *)

Example healthy_path :
  column_path "HEALTHY"
  = Some [jsonpath.Child "status"; jsonpath.Child "conditions";
          jsonpath.Filter "type" "Healthy"; jsonpath.Child "status"].
Proof. reflexivity. Qed.

(** A revision that is installed and not healthy. *)
Example healthy_of_unhealthy :
  column_value "HEALTHY"
    (json.Object
       [("status", json.Object
          [("conditions", json.Array
             [json.Object [("type", json.String "Installed");
                           ("status", json.String "True")];
              json.Object [("type", json.String "Healthy");
                           ("status", json.String "False")]])])])
  = Some [json.String "False"].
Proof. reflexivity. Qed.

(** The statuses of the conditions of type Healthy of a stored object. *)
Lemma healthy_column (object : json.t) :
  column_value "HEALTHY" object
  = Some (match json.at_path ["status"; "conditions"] object with
          | Some (json.Array conditions) =>
              List.filter (λ c, json.is_string "Healthy" (json.field "type" c)) conditions
              ≫= λ c, option_list (json.field "status" c)
          | _ => []
          end).
Proof.
  unfold column_value.
  assert (column_path "HEALTHY"
          = Some [jsonpath.Child "status"; jsonpath.Child "conditions";
                  jsonpath.Filter "type" "Healthy"; jsonpath.Child "status"]) as ->
    by (vm_compute; reflexivity).
  cbn -[json.field]. f_equal.
  destruct (json.field "status" object) as [status|]; cbn -[json.field]; [|done].
  destruct (json.field "conditions" status) as [conditions|]; cbn -[json.field]; [|done].
  rewrite app_nil_r. by destruct conditions.
Qed.

(** C8. The columns of a listing of revisions show fields of the stored
    object: REVISION shows spec.revision, IMAGE spec.image, STATE
    spec.desiredState, DEP-FOUND status.foundDependencies and DEP-INSTALLED
    status.installedDependencies; HEALTHY shows the status of the conditions
    of status.conditions whose type is Healthy. *)
Theorem columns_show_fields (object : json.t) :
  column_value "REVISION" object
  = Some (option_list (json.at_path ["spec"; "revision"] object))
  ∧ column_value "IMAGE" object
    = Some (option_list (json.at_path ["spec"; "image"] object))
  ∧ column_value "STATE" object
    = Some (option_list (json.at_path ["spec"; "desiredState"] object))
  ∧ column_value "DEP-FOUND" object
    = Some (option_list (json.at_path ["status"; "foundDependencies"] object))
  ∧ column_value "DEP-INSTALLED" object
    = Some (option_list (json.at_path ["status"; "installedDependencies"] object))
  ∧ column_value "HEALTHY" object
    = Some (match json.at_path ["status"; "conditions"] object with
            | Some (json.Array conditions) =>
                List.filter (λ c, json.is_string "Healthy" (json.field "type" c)) conditions
                ≫= λ c, option_list (json.field "status" c)
            | _ => []
            end).
Proof.
  split_and!.
  - field_column object "spec" "revision".
  - field_column object "spec" "image".
  - field_column object "spec" "desiredState".
  - field_column object "status" "foundDependencies".
  - field_column object "status" "installedDependencies".
  - apply healthy_column.
Qed.

(** * Further properties of the accessors *)

(** ** Setting and getting on a revision *)

(** X1. On both kinds of revision every capability returns the value that
    was set, whatever the revision was, and its setter leaves the conditions
    memory alone. The conditions of a revision are those of the
    ConditionedStatus embedded in its status: SetConditions and GetCondition
    pass the call on to it. *)
Theorem revision_set_get `{!xpv1.Methods} (m : xpv1.mem) (r : PackageRevision.t) :
  (∀ c v,
     let '(m', r') := PackageRevision.call (RevisionCapability.setter c v) m r in
     m' = m ∧ RevisionCapability.getter c r' = v)
  ∧ (∀ cs ct,
     let '(m', r') := PackageRevision.call (RevisionSetter.SetConditions cs) m r in
     let '(m'', status) := xpv1.SetConditions m (revision_conditioned r) cs in
     m' = m'' ∧ revision_conditioned r' = status
     ∧ revision_GetCondition m' r' ct = xpv1.GetCondition m'' status ct).
Proof.
  split.
  - intros c v. destruct r as [p|p]; destruct_records;
      destruct c; try destruct v as [[found installed] invalid]; split; reflexivity.
  - intros cs ct. destruct r as [p|p]; destruct_records; cbn;
      unfold ProviderRevision.SetConditions, ConfigurationRevision.SetConditions; cbn;
      destruct_library; done.
Qed.

(** ** How setters compose *)

Section compose.
Context `{!xpv1.Methods}.

Ltac overwrite Hsame Hconds :=
  first [ discriminate Hsame | reflexivity | named_field Hconds ].

Lemma Provider_overwrite c1 c2 m p :
  Provider.writes c1 = Provider.writes c2 →
  Provider.F_Status PackageStatus.F_ConditionedStatus ∉ Provider.writes c2 →
  Provider.call c2 (Provider.call c1 m p).1 (Provider.call c1 m p).2 = Provider.call c2 m p.
Proof.
  intros Hsame Hconds. destruct_records. destruct c1, c2; cbn in Hsame; overwrite Hsame Hconds.
Qed.

Lemma Configuration_overwrite c1 c2 m p :
  Configuration.writes c1 = Configuration.writes c2 →
  Configuration.F_Status PackageStatus.F_ConditionedStatus ∉ Configuration.writes c2 →
  Configuration.call c2 (Configuration.call c1 m p).1 (Configuration.call c1 m p).2
  = Configuration.call c2 m p.
Proof.
  intros Hsame Hconds. destruct_records. destruct c1, c2; cbn in Hsame; overwrite Hsame Hconds.
Qed.

Lemma ProviderRevision_overwrite c1 c2 m p :
  ProviderRevision.writes c1 = ProviderRevision.writes c2 →
  ProviderRevision.F_Status PackageRevisionStatus.F_ConditionedStatus
    ∉ ProviderRevision.writes c2 →
  ProviderRevision.call c2 (ProviderRevision.call c1 m p).1 (ProviderRevision.call c1 m p).2
  = ProviderRevision.call c2 m p.
Proof.
  intros Hsame Hconds. destruct_records. destruct c1, c2; cbn in Hsame; overwrite Hsame Hconds.
Qed.

Lemma ConfigurationRevision_overwrite c1 c2 m p :
  ConfigurationRevision.writes c1 = ConfigurationRevision.writes c2 →
  ConfigurationRevision.F_Status PackageRevisionStatus.F_ConditionedStatus
    ∉ ConfigurationRevision.writes c2 →
  ConfigurationRevision.call c2 (ConfigurationRevision.call c1 m p).1
    (ConfigurationRevision.call c1 m p).2
  = ConfigurationRevision.call c2 m p.
Proof.
  intros Hsame Hconds. destruct_records. destruct c1, c2; cbn in Hsame; overwrite Hsame Hconds.
Qed.

End compose.

(** X2. The last call wins: when two calls are of the same setter, other
    than SetConditions, the receiver after both is the receiver after the
    second alone, and so is the conditions memory. This holds on each of the
    four types; two calls are of the same setter when they name the same
    fields. *)
Theorem setters_overwrite `{!xpv1.Methods} (m : xpv1.mem) :
  (∀ c1 c2 p,
     Provider.writes c1 = Provider.writes c2 →
     Provider.F_Status PackageStatus.F_ConditionedStatus ∉ Provider.writes c2 →
     Provider.call c2 (Provider.call c1 m p).1 (Provider.call c1 m p).2
     = Provider.call c2 m p)
  ∧ (∀ c1 c2 p,
     Configuration.writes c1 = Configuration.writes c2 →
     Configuration.F_Status PackageStatus.F_ConditionedStatus ∉ Configuration.writes c2 →
     Configuration.call c2 (Configuration.call c1 m p).1 (Configuration.call c1 m p).2
     = Configuration.call c2 m p)
  ∧ (∀ c1 c2 p,
     ProviderRevision.writes c1 = ProviderRevision.writes c2 →
     ProviderRevision.F_Status PackageRevisionStatus.F_ConditionedStatus
       ∉ ProviderRevision.writes c2 →
     ProviderRevision.call c2 (ProviderRevision.call c1 m p).1
       (ProviderRevision.call c1 m p).2
     = ProviderRevision.call c2 m p)
  ∧ (∀ c1 c2 p,
     ConfigurationRevision.writes c1 = ConfigurationRevision.writes c2 →
     ConfigurationRevision.F_Status PackageRevisionStatus.F_ConditionedStatus
       ∉ ConfigurationRevision.writes c2 →
     ConfigurationRevision.call c2 (ConfigurationRevision.call c1 m p).1
       (ConfigurationRevision.call c1 m p).2
     = ConfigurationRevision.call c2 m p).
Proof.
  split_and!; intros c1 c2 p Hsame Hconds.
  - by apply Provider_overwrite.
  - by apply Configuration_overwrite.
  - by apply ProviderRevision_overwrite.
  - by apply ConfigurationRevision_overwrite.
Qed.

(** The source of a Provider, set twice. *)
Lemma setters_overwrite_witness :
  let c1 := PackageSetter.SetSource "registry/provider:v1" in
  let c2 := PackageSetter.SetSource "registry/provider:v2" in
  Provider.writes c1 = Provider.writes c2
  ∧ (Provider.F_Status PackageStatus.F_ConditionedStatus ∉ Provider.writes c2)
  ∧ Provider.call (H := xpv1.no_conditions) c2
      (Provider.call (H := xpv1.no_conditions) c1 ∅ Provider.zero).1
      (Provider.call (H := xpv1.no_conditions) c1 ∅ Provider.zero).2
    = Provider.call (H := xpv1.no_conditions) c2 ∅ Provider.zero.
Proof.
  cbv zeta.
  assert (Hsame : Provider.writes (PackageSetter.SetSource "registry/provider:v1")
                  = Provider.writes (PackageSetter.SetSource "registry/provider:v2"))
    by reflexivity.
  assert (Hconds : Provider.F_Status PackageStatus.F_ConditionedStatus
                   ∉ Provider.writes (PackageSetter.SetSource "registry/provider:v2")).
  { cbn. intros Hin. apply elem_of_cons in Hin as [Hin|Hin]; [discriminate|].
    by apply elem_of_nil in Hin. }
  split_and!; [exact Hsame|exact Hconds|].
  exact (proj1 (setters_overwrite (H := xpv1.no_conditions) ∅) _ _ Provider.zero Hsame Hconds).
Defined.

Section commute.
Context `{!xpv1.Methods}.

(** Two calls that name a same field do not both name fields of their own
    only. *)
Ltac shared_field Hapart :=
  solve [ exfalso; eapply Hapart; repeat constructor ].

Ltac commute Hapart :=
  first [ reflexivity
        | shared_field Hapart
        | run_call; reflexivity ].

Lemma Provider_commute c1 c2 m p :
  (∀ f, f ∈ Provider.writes c1 → f ∉ Provider.writes c2) →
  Provider.call c2 (Provider.call c1 m p).1 (Provider.call c1 m p).2
  = Provider.call c1 (Provider.call c2 m p).1 (Provider.call c2 m p).2.
Proof.
  intros Hapart. destruct_records. destruct c1, c2; commute Hapart.
Qed.

Lemma Configuration_commute c1 c2 m p :
  (∀ f, f ∈ Configuration.writes c1 → f ∉ Configuration.writes c2) →
  Configuration.call c2 (Configuration.call c1 m p).1 (Configuration.call c1 m p).2
  = Configuration.call c1 (Configuration.call c2 m p).1 (Configuration.call c2 m p).2.
Proof.
  intros Hapart. destruct_records. destruct c1, c2; commute Hapart.
Qed.

Lemma ProviderRevision_commute c1 c2 m p :
  (∀ f, f ∈ ProviderRevision.writes c1 → f ∉ ProviderRevision.writes c2) →
  ProviderRevision.call c2 (ProviderRevision.call c1 m p).1 (ProviderRevision.call c1 m p).2
  = ProviderRevision.call c1 (ProviderRevision.call c2 m p).1
      (ProviderRevision.call c2 m p).2.
Proof.
  intros Hapart. destruct_records. destruct c1, c2; commute Hapart.
Qed.

Lemma ConfigurationRevision_commute c1 c2 m p :
  (∀ f, f ∈ ConfigurationRevision.writes c1 → f ∉ ConfigurationRevision.writes c2) →
  ConfigurationRevision.call c2 (ConfigurationRevision.call c1 m p).1
    (ConfigurationRevision.call c1 m p).2
  = ConfigurationRevision.call c1 (ConfigurationRevision.call c2 m p).1
      (ConfigurationRevision.call c2 m p).2.
Proof.
  intros Hapart. destruct_records. destruct c1, c2; commute Hapart.
Qed.

End commute.

(** X3. Two calls of setters that name no field in common commute, on each
    of the four types: in either order they leave the same receiver and the
    same conditions memory. One of the two may be SetConditions, whatever the
    library does in it. *)
Theorem setters_commute `{!xpv1.Methods} (m : xpv1.mem) :
  (∀ c1 c2 p,
     (∀ f, f ∈ Provider.writes c1 → f ∉ Provider.writes c2) →
     Provider.call c2 (Provider.call c1 m p).1 (Provider.call c1 m p).2
     = Provider.call c1 (Provider.call c2 m p).1 (Provider.call c2 m p).2)
  ∧ (∀ c1 c2 p,
     (∀ f, f ∈ Configuration.writes c1 → f ∉ Configuration.writes c2) →
     Configuration.call c2 (Configuration.call c1 m p).1 (Configuration.call c1 m p).2
     = Configuration.call c1 (Configuration.call c2 m p).1 (Configuration.call c2 m p).2)
  ∧ (∀ c1 c2 p,
     (∀ f, f ∈ ProviderRevision.writes c1 → f ∉ ProviderRevision.writes c2) →
     ProviderRevision.call c2 (ProviderRevision.call c1 m p).1
       (ProviderRevision.call c1 m p).2
     = ProviderRevision.call c1 (ProviderRevision.call c2 m p).1
         (ProviderRevision.call c2 m p).2)
  ∧ (∀ c1 c2 p,
     (∀ f, f ∈ ConfigurationRevision.writes c1 → f ∉ ConfigurationRevision.writes c2) →
     ConfigurationRevision.call c2 (ConfigurationRevision.call c1 m p).1
       (ConfigurationRevision.call c1 m p).2
     = ConfigurationRevision.call c1 (ConfigurationRevision.call c2 m p).1
         (ConfigurationRevision.call c2 m p).2).
Proof.
  split_and!; intros c1 c2 p Hapart.
  - by apply Provider_commute.
  - by apply Configuration_commute.
  - by apply ProviderRevision_commute.
  - by apply ConfigurationRevision_commute.
Qed.

(** The desired state and the dependency counters of a
    ConfigurationRevision, set in either order. *)
Lemma setters_commute_witness :
  let c1 := RevisionSetter.SetDesiredState PackageRevisionInactive in
  let c2 := RevisionSetter.SetDependencyStatus 3 2 0 in
  let call := ConfigurationRevision.call (H := xpv1.no_conditions) in
  let p := ConfigurationRevision.zero in
  (∀ f, f ∈ ConfigurationRevision.writes c1 → f ∉ ConfigurationRevision.writes c2)
  ∧ call c2 (call c1 ∅ p).1 (call c1 ∅ p).2 = call c1 (call c2 ∅ p).1 (call c2 ∅ p).2.
Proof.
  cbv zeta.
  assert (Hapart : ∀ f,
    f ∈ ConfigurationRevision.writes (RevisionSetter.SetDesiredState PackageRevisionInactive) →
    f ∉ ConfigurationRevision.writes (RevisionSetter.SetDependencyStatus 3 2 0)).
  { cbn. intros f Hf Hin. apply elem_of_cons in Hf as [->|Hf]; [|by apply elem_of_nil in Hf].
    repeat (apply elem_of_cons in Hin as [Hin|Hin]; [discriminate|]).
    by apply elem_of_nil in Hin. }
  split; [exact Hapart|].
  exact (proj2 (proj2 (proj2 (setters_commute (H := xpv1.no_conditions) ∅)))
           _ _ ConfigurationRevision.zero Hapart).
Defined.

(** ** The conditions and the other setters *)

(** X4. A setter other than SetConditions leaves the conditions of the
    receiver as they are, on each of the four types: it does not write to the
    conditions memory, and GetCondition returns after the call what it
    returned before, for every condition type and whatever the library's
    GetCondition computes. *)
Theorem conditions_kept `{!xpv1.Methods} (m : xpv1.mem) (ct : xpv1.ConditionType) :
  (∀ c p,
     Provider.F_Status PackageStatus.F_ConditionedStatus ∉ Provider.writes c →
     (Provider.call c m p).1 = m
     ∧ Provider.GetCondition m (Provider.call c m p).2 ct = Provider.GetCondition m p ct)
  ∧ (∀ c p,
     Configuration.F_Status PackageStatus.F_ConditionedStatus ∉ Configuration.writes c →
     (Configuration.call c m p).1 = m
     ∧ Configuration.GetCondition m (Configuration.call c m p).2 ct
       = Configuration.GetCondition m p ct)
  ∧ (∀ c p,
     ProviderRevision.F_Status PackageRevisionStatus.F_ConditionedStatus
       ∉ ProviderRevision.writes c →
     (ProviderRevision.call c m p).1 = m
     ∧ ProviderRevision.GetCondition m (ProviderRevision.call c m p).2 ct
       = ProviderRevision.GetCondition m p ct)
  ∧ (∀ c p,
     ConfigurationRevision.F_Status PackageRevisionStatus.F_ConditionedStatus
       ∉ ConfigurationRevision.writes c →
     (ConfigurationRevision.call c m p).1 = m
     ∧ ConfigurationRevision.GetCondition m (ConfigurationRevision.call c m p).2 ct
       = ConfigurationRevision.GetCondition m p ct).
Proof.
  split_and!; intros c p Hc; destruct_records;
    destruct c; first [ named_field Hc | split; reflexivity ].
Qed.

(** SetRevisionHistoryLimit on a Provider. *)
Lemma conditions_kept_witness :
  let c := PackageSetter.SetRevisionHistoryLimit (Some 3%Z) in
  (Provider.F_Status PackageStatus.F_ConditionedStatus ∉ Provider.writes c)
  ∧ (Provider.call (H := xpv1.no_conditions) c ∅ Provider.zero).1 = ∅.
Proof.
  cbv zeta.
  assert (Hc : Provider.F_Status PackageStatus.F_ConditionedStatus
               ∉ Provider.writes (PackageSetter.SetRevisionHistoryLimit (Some 3%Z))).
  { cbn. intros Hin. apply elem_of_cons in Hin as [Hin|Hin]; [discriminate|].
    by apply elem_of_nil in Hin. }
  split; [exact Hc|].
  exact (proj1 (proj1 (conditions_kept (H := xpv1.no_conditions) ∅ "Healthy")
                  _ Provider.zero Hc)).
Defined.

(** ** What the setters of the package leave alone *)

Section never.
Context `{!xpv1.Methods}.

(** A call leaves the kind of a revision, its metadata and its permission
    requests as they are. *)
Lemma call_keeps_meta c m r :
  let r' := (PackageRevision.call c m r).2 in
  revision_meta r' = revision_meta r
  ∧ PackageRevisionStatus.PermissionRequests (PackageRevision.Status r')
    = PackageRevisionStatus.PermissionRequests (PackageRevision.Status r)
  ∧ match r, r' with
    | PackageRevision.OfProviderRevision _, PackageRevision.OfProviderRevision _
    | PackageRevision.OfConfigurationRevision _, PackageRevision.OfConfigurationRevision _ =>
        True
    | _, _ => False
    end.
Proof. destruct r as [p|p]; destruct_records; destruct c; run_call; done. Qed.

End never.

(** X5. No sequence of calls of the setters this package defines on the
    revision types changes the metadata of a revision, its permission
    requests, or which of the two kinds of revision it is. The metadata is
    written by the setters of the embedded ObjectMeta only, which come with
    resource.Object and are no setters of this package, and no setter of
    the package writes the permission requests. *)
Theorem calls_keep_meta `{!xpv1.Methods} (cs : list RevisionSetter.t) (m : xpv1.mem)
    (r : PackageRevision.t) :
  let r' := (PackageRevision.calls cs m r).2 in
  revision_meta r' = revision_meta r
  ∧ PackageRevisionStatus.PermissionRequests (PackageRevision.Status r')
    = PackageRevisionStatus.PermissionRequests (PackageRevision.Status r)
  ∧ match r, r' with
    | PackageRevision.OfProviderRevision _, PackageRevision.OfProviderRevision _
    | PackageRevision.OfConfigurationRevision _, PackageRevision.OfConfigurationRevision _ =>
        True
    | _, _ => False
    end.
Proof.
  cbv zeta. unfold PackageRevision.calls.
  change r with (m, r).2 at 2 4 5. generalize (m, r). clear m r.
  induction cs as [|c cs IH]; intros st; cbn [foldl].
  { split_and!; [done..|by destruct st.2]. }
  destruct (call_keeps_meta c st.1 st.2) as (Hmeta & Hperms & Hkind).
  destruct (IH (PackageRevision.call c st.1 st.2)) as (Hmeta' & Hperms' & Hkind').
  split_and!.
  - by rewrite Hmeta'.
  - by rewrite Hperms'.
  - destruct st.2, (PackageRevision.call c st.1 _).2; try done;
      destruct (foldl _ _ cs).2; done.
Qed.

(** ** Copies of the items of a list *)

(** Whether the items of a list lie in a store depends on the cells of the
    items only. *)
Lemma allocated_same_items l h h' :
  PackageRevisionList.allocated l h →
  (∀ i, i < go.len (PackageRevisionList.Items l) →
     store.cells h' !! PackageRevisionList.item l i
     = store.cells h !! PackageRevisionList.item l i) →
  PackageRevisionList.allocated l h'.
Proof.
  intros Halloc Hsame. destruct l as [l|l]; intros i Hi;
    destruct (Halloc i Hi) as [r Hr]; exists r; rewrite <- Hr; by apply Hsame.
Qed.

(** A copy of an item is a cell of the store the copies were made in. *)
Lemma copy_is_cell l h h' addrs a :
  PackageRevisionList.allocated l h →
  length addrs = go.len (PackageRevisionList.Items l) →
  copies (go.ptr (PackageRevisionList.Items l)) h h' addrs →
  a ∈ addrs → is_Some (store.cells h' !! a).
Proof.
  intros Halloc Hlen (_ & _ & Hcopy & _) Ha.
  destruct (proj1 (list_elem_of_lookup addrs a) Ha) as [k Hk].
  rewrite (Hcopy k a Hk). apply (allocated_item l h k Halloc).
  rewrite <- Hlen. by eapply lookup_lt_Some.
Qed.

(** X6. The copies GetRevisions returns are independent of one another and
    of later calls, as structs. A setter called through one returned pointer
    leaves the copies behind the other returned pointers as they are. A
    second call of GetRevisions, after such a setter, returns pointers that
    are all different from those of the first call, to copies of the structs
    of the items as they were at first, and leaves the conditions memory as
    the setter left it. When the setter is not SetConditions that memory is
    as it was at first, and every copy of the second result reads the
    conditions its item read at first: nothing that was changed through the
    first result shows in the second. SetConditions is the exception, as the
    copies share the arrays of the conditions with the items. *)
Theorem GetRevisions_again `{!xpv1.Methods} (l : PackageRevisionList.t) (h : store.t) :
  PackageRevisionList.allocated l h →
  ∃ addrs h',
    PackageRevisionList.GetRevisions l h = Some (Some <$> addrs, h')
    ∧ ∀ c a, a ∈ addrs →
        ∃ h'',
          store.call c a h' = Some h''
          ∧ (∀ b, b ∈ addrs → b ≠ a → store.cells h'' !! b = store.cells h' !! b)
          ∧ ∃ addrs' h''',
              PackageRevisionList.GetRevisions l h'' = Some (Some <$> addrs', h''')
              ∧ length addrs' = go.len (PackageRevisionList.Items l)
              ∧ (∀ b, b ∈ addrs' → b ∉ addrs)
              ∧ (∀ i b, addrs' !! i = Some b →
                   store.cells h''' !! b = store.cells h !! PackageRevisionList.item l i)
              ∧ store.conditions h''' = store.conditions h''
              ∧ match c with
                | RevisionSetter.SetConditions _ => True
                | _ =>
                    store.conditions h''' = store.conditions h
                    ∧ ∀ i b ct, addrs' !! i = Some b →
                        pointer_GetCondition h''' b ct
                        = pointer_GetCondition h (PackageRevisionList.item l i) ct
                end.
Proof.
  intros Halloc.
  destruct (GetRevisions_copies_items l h Halloc) as (addrs & h' & Hrun & Hlen & Hcopies).
  exists addrs, h'. split; [exact Hrun|]. intros c a Ha.
  destruct (copy_is_cell l h h' addrs a Halloc Hlen Hcopies Ha) as [r Hr].
  destruct Hcopies as (Hnd & Hnew & Hcopy & Hsub & Hconds).
  pose proof (call_conditions c (store.conditions h') r) as Hlibrary.
  unfold store.call. rewrite Hr.
  destruct (PackageRevision.call c (store.conditions h') r) as [m' r'].
  cbn [fst snd] in Hlibrary.
  set (h'' := store.mk (<[a := r']> (store.cells h')) m').
  assert (Hitems : ∀ i, i < go.len (PackageRevisionList.Items l) →
            store.cells h'' !! PackageRevisionList.item l i
            = store.cells h !! PackageRevisionList.item l i).
  { intros i Hi. destruct (allocated_item l h i Halloc Hi) as [v Hv]. cbn.
    rewrite lookup_insert_ne.
    - rewrite Hv. eapply lookup_weaken; eauto.
    - intros ->. rewrite (Hnew _ Ha) in Hv. done. }
  exists h''. split_and!; [done| |].
  { intros b Hb Hne. cbn. by rewrite lookup_insert_ne. }
  pose proof (allocated_same_items l h h'' Halloc Hitems) as Halloc''.
  destruct (GetRevisions_copies_items l h'' Halloc'')
    as (addrs' & h''' & Hrun' & Hlen' & Hnd' & Hnew' & Hcopy' & Hsub' & Hconds').
  assert (Hsecond : ∀ i b, addrs' !! i = Some b →
            store.cells h''' !! b = store.cells h !! PackageRevisionList.item l i).
  { intros i b Hb. rewrite (Hcopy' i b Hb). apply Hitems.
    rewrite <- Hlen'. by eapply lookup_lt_Some. }
  exists addrs', h'''. split_and!; [done..| | | |].
  - intros b Hb Hin. apply Hnew' in Hb. cbn in Hb.
    destruct (copy_is_cell l h h' addrs b Halloc Hlen
                (conj Hnd (conj Hnew (conj Hcopy (conj Hsub Hconds)))) Hin) as [v Hv].
    destruct (decide (a = b)) as [->|Hne].
    + by rewrite lookup_insert_eq in Hb.
    + rewrite lookup_insert_ne, Hv in Hb by done. done.
  - exact Hsecond.
  - exact Hconds'.
  - assert (Hkept : m' = store.conditions h' → store.conditions h''' = store.conditions h
              ∧ ∀ i b ct, addrs' !! i = Some b →
                  pointer_GetCondition h''' b ct
                  = pointer_GetCondition h (PackageRevisionList.item l i) ct).
    { intros Hm. assert (Hmem : store.conditions h''' = store.conditions h).
      { rewrite Hconds'. cbn. by rewrite Hm. }
      split; [exact Hmem|]. intros i b ct Hb. unfold pointer_GetCondition.
      by rewrite (Hsecond i b Hb), Hmem. }
    destruct c; first [exact I | apply Hkept, Hlibrary].
Qed.

(** A list of two ConfigurationRevisions, at the addresses 5 and 6. *)
Lemma GetRevisions_again_witness :
  let r1 := ConfigurationRevision.SetRevision ConfigurationRevision.zero 1 in
  let r2 := ConfigurationRevision.SetRevision ConfigurationRevision.zero 2 in
  let h := store.mk {[ 5 := PackageRevision.OfConfigurationRevision r1;
                       6 := PackageRevision.OfConfigurationRevision r2 ]} ∅ in
  let l := PackageRevisionList.OfConfigurationRevisionList
             (ConfigurationRevisionList.mk (go.mkSlice 5 2 2)) in
  PackageRevisionList.allocated l h
  ∧ ∃ addrs h', PackageRevisionList.GetRevisions l h = Some (Some <$> addrs, h').
Proof.
  cbv zeta.
  match goal with |- ?A ∧ _ => assert (Hallocated : A) end.
  { intros i Hi. destruct i as [|[|i]]; [eexists; reflexivity..|cbn in Hi; lia]. }
  split; [exact Hallocated|].
  destruct (GetRevisions_again (H := xpv1.no_conditions) _ _ Hallocated)
    as (addrs & h' & Hrun & _).
  exists addrs, h'. exact Hrun.
Defined.

(** ** More on RefNames *)

(** X7. RefNames of two slices one after the other is the names of the
    first followed by the names of the second, and a string is among the
    names exactly when it is the name of one of the references. *)
Theorem RefNames_app (refs1 refs2 : list corev1.LocalObjectReference) :
  RefNames (refs1 ++ refs2) = RefNames refs1 ++ RefNames refs2
  ∧ (∀ s, s ∈ RefNames refs1 ↔ ∃ ref, ref ∈ refs1 ∧ corev1.Name ref = s).
Proof.
  rewrite !RefNames_fmap. split.
  - apply fmap_app.
  - intros s. rewrite list_elem_of_fmap. split.
    + intros (ref & -> & Href). eauto.
    + intros (ref & Href & <-). eauto.
Qed.

(** X8. RefNames loses nothing: a reference holds its name and no more, so
    the references are those built from the names, in their order, and two
    slices of references with the same names are the same. *)
Theorem RefNames_inverse (refs : list corev1.LocalObjectReference) :
  corev1.mkLocalObjectReference <$> RefNames refs = refs
  ∧ ∀ refs', RefNames refs = RefNames refs' → refs = refs'.
Proof.
  assert (Hinv : ∀ l, corev1.mkLocalObjectReference <$> RefNames l = l).
  { intros l. rewrite RefNames_fmap, <- list_fmap_compose.
    induction l as [|[name] l IH]; [done|]. cbn. by rewrite IH. }
  split; [apply Hinv|].
  intros refs' Hnames. rewrite <- (Hinv refs), <- (Hinv refs'). by rewrite Hnames.
Qed.

(** ** Fields of a valid revision *)

(** The check of the field [name] of an object the schema holds valid. *)
Ltac field_of_valid Hfields Hv :=
  let H := fresh "Hfield" in
  pose proof (proj1 (forallb_forall _ _) Hfields _ (json_lookup_In _ _ _ Hv)) as H;
  cbn in H.

Lemma forallb_In {A} (f : A → bool) l x : forallb f l = true → In x l → f x = true.
Proof. intros Hl. by apply forallb_forall. Qed.

(** X9. A spec the schema holds valid has an image, which is a string, and
    a revision, which is an integer in the range of an int64. Of the other
    fields, when they are there, the two flags are booleans, the controller
    config reference is an object with a name that is a string, the common
    labels are an object whose values are all strings, the package pull
    secrets are an array, and the pull policy and the four secret names are
    strings. *)
Theorem valid_spec_fields (fields : list (string * json.t)) :
  openapi.valid crd.spec (json.Object fields) = true →
  (∃ image, json.lookup "image" fields = Some (json.String image))
  ∧ (∃ n, json.lookup "revision" fields = Some (json.Number n) ∧ go.is_int64 n)
  ∧ (∀ name v, name ∈ ["skipDependencyResolution"; "ignoreCrossplaneConstraints"] →
       json.lookup name fields = Some v → ∃ b, v = json.Bool b)
  ∧ (∀ v, json.lookup "controllerConfigRef" fields = Some v →
       ∃ ref name, v = json.Object ref ∧ json.lookup "name" ref = Some (json.String name))
  ∧ (∀ v, json.lookup "commonLabels" fields = Some v →
       ∃ labels, v = json.Object labels
                 ∧ ∀ key x, In (key, x) labels → ∃ s, x = json.String s)
  ∧ (∀ v, json.lookup "packagePullSecrets" fields = Some v → ∃ items, v = json.Array items)
  ∧ (∀ name v,
       name ∈ ["packagePullPolicy"; "essTLSSecretName"; "tlsClientSecretName";
               "tlsServerSecretName"; "webhookTLSSecretName"] →
       json.lookup name fields = Some v → ∃ s, v = json.String s).
Proof.
  intros Hvalid. apply andb_prop in Hvalid as [Hrequired Hfields].
  cbn [forallb] in Hrequired. unfold json.has in Hrequired.
  destruct (json.lookup "image" fields) as [image|] eqn:Himage;
    [|by rewrite andb_false_r in Hrequired].
  destruct (json.lookup "revision" fields) as [revision|] eqn:Hrevision;
    [|by rewrite !andb_false_r in Hrequired].
  split_and!.
  - field_of_valid Hfields Himage. destruct image; try discriminate. eauto.
  - field_of_valid Hfields Hrevision. destruct revision; try discriminate.
    apply int64b_is_int64 in Hfield. eauto.
  - intros name v Hname Hv.
    repeat (apply elem_of_cons in Hname as [->|Hname]);
      [| |by apply elem_of_nil in Hname];
      field_of_valid Hfields Hv; destruct v; try discriminate; eauto.
  - intros v Hv. field_of_valid Hfields Hv. destruct v as [| | | |?|ref]; try discriminate.
    apply andb_prop in Hfield as [Hname Hnames]. cbn in Hname. unfold json.has in Hname.
    destruct (json.lookup "name" ref) as [name|] eqn:Hlookup; [|discriminate].
    field_of_valid Hnames Hlookup. destruct name; try discriminate. eauto.
  - intros v Hv. field_of_valid Hfields Hv. destruct v as [| | | |?|labels]; try discriminate.
    exists labels. split; [done|]. intros key x Hin.
    pose proof (forallb_In _ _ _ Hfield Hin) as Hx. cbn in Hx.
    destruct x; try discriminate. eauto.
  - intros v Hv. field_of_valid Hfields Hv. destruct v; try discriminate. eauto.
  - intros name v Hname Hv.
    repeat (apply elem_of_cons in Hname as [->|Hname]);
      [| | | | |by apply elem_of_nil in Hname];
      field_of_valid Hfields Hv; destruct v; try discriminate; eauto.
Qed.

(** A spec with the three required fields and a flag. *)
Lemma valid_spec_fields_witness :
  let fields := [("desiredState", json.String "Active");
                 ("image", json.String "registry/function:v1");
                 ("revision", json.Number 7);
                 ("skipDependencyResolution", json.Bool true)] in
  openapi.valid crd.spec (json.Object fields) = true
  ∧ ∃ image, json.lookup "image" fields = Some (json.String image).
Proof.
  cbv zeta.
  match goal with |- ?A ∧ _ => assert (Hvalid : A) by reflexivity end.
  split; [exact Hvalid|]. exact (proj1 (valid_spec_fields _ Hvalid)).
Defined.

(** ** The image scan workflow *)

Lemma escape_get line i :
  String.get i (scan.escape line)
  = (λ c, if scan.separator c then "_"%char else c) <$> String.get i line.
Proof.
  revert i. induction line as [|c rest IH]; intros i; [done|].
  destruct i as [|i]; cbn; [done|apply IH].
Qed.

(** X10. The substitution replaces four characters, the backslash, the
    slash, the dot and the colon. The file name of a scan result has the
    length of the line it is made from and holds none of the four: each of
    them is an underscore, and every other character is where it was.
    Escaping a second time changes nothing. *)
Theorem escape_separators (line : string) :
  (∀ c, scan.separator c = true ↔ c ∈ ["\"; "/"; "."; ":"]%char)
  ∧ String.length (scan.escape line) = String.length line
  ∧ (∀ i c, String.get i (scan.escape line) = Some c → scan.separator c = false)
  ∧ (∀ i c, String.get i line = Some c →
       String.get i (scan.escape line) = Some (if scan.separator c then "_"%char else c))
  ∧ scan.escape (scan.escape line) = scan.escape line.
Proof.
  split_and!.
  - intros c. unfold scan.separator. rewrite !orb_true_iff, !Ascii.eqb_eq.
    rewrite !elem_of_cons, elem_of_nil. tauto.
  - induction line as [|c rest IH]; [done|]. cbn. by rewrite IH.
  - intros i c. rewrite escape_get.
    destruct (String.get i line) as [c'|]; [|done]. cbn. intros [= <-].
    destruct (scan.separator c') eqn:Hc'; [reflexivity|exact Hc'].
  - intros i c Hc. by rewrite escape_get, Hc.
  - induction line as [|c rest IH]; [done|]. cbn. rewrite IH. f_equal.
    destruct (scan.separator c) eqn:Hc; [reflexivity|by rewrite Hc].
Qed.

Example escaped_filename_of_release :
  scan.escaped_filename "crossplane/crossplane" "v1.13.2" = "crossplane_crossplane_v1_13_2"
  ∧ scan.artifact_name "crossplane/crossplane" "v1.13.2"
    = "trivy-crossplane_crossplane_v1_13_2.sarif".
Proof. split; reflexivity. Qed.








(** ** The status of a valid revision and the columns there are *)

(** X12. The schema requires no field of a status: the empty status is
    valid. Of the fields of a valid status, when they are there, the three
    dependency counters are integers in the range of an int64, and the
    conditions are an array of objects, each with a type, a status, a reason
    and a last transition time that are strings. *)
Theorem valid_status_fields (fields : list (string * json.t)) :
  openapi.valid crd.status (json.Object fields) = true →
  openapi.valid crd.status (json.Object []) = true
  ∧ (∀ name v,
       name ∈ ["foundDependencies"; "installedDependencies"; "invalidDependencies"] →
       json.lookup name fields = Some v → ∃ n, v = json.Number n ∧ go.is_int64 n)
  ∧ (∀ v, json.lookup "conditions" fields = Some v →
       ∃ conditions, v = json.Array conditions
         ∧ ∀ c, In c conditions →
             ∃ condition, c = json.Object condition
               ∧ ∀ name, name ∈ ["type"; "status"; "reason"; "lastTransitionTime"] →
                   ∃ s, json.lookup name condition = Some (json.String s)).
Proof.
  intros Hvalid. apply andb_prop in Hvalid as [_ Hfields]. split_and!.
  - reflexivity.
  - intros name v Hname Hv.
    repeat (apply elem_of_cons in Hname as [->|Hname]);
      [| | |by apply elem_of_nil in Hname];
      field_of_valid Hfields Hv; destruct v; try discriminate;
      apply int64b_is_int64 in Hfield; eauto.
  - intros v Hv. field_of_valid Hfields Hv.
    destruct v as [| | | |conditions|]; try discriminate.
    exists conditions. split; [done|]. intros c Hc.
    pose proof (forallb_In _ _ _ Hfield Hc) as Hcondition. cbn in Hcondition.
    destruct c as [| | | | |condition]; try discriminate.
    exists condition. split; [done|].
    apply andb_prop in Hcondition as [Hrequired Hchecked].
    unfold json.has in Hrequired. intros name Hname.
    repeat (apply elem_of_cons in Hname as [->|Hname]);
      [| | | |by apply elem_of_nil in Hname];
      match goal with
      | |- ∃ s, json.lookup ?name condition = _ =>
          destruct (json.lookup name condition) as [x|] eqn:Hx;
            [|by rewrite ?andb_false_r in Hrequired]
      end;
      field_of_valid Hchecked Hx; destruct x; try discriminate; eauto.
Qed.

(** A status with its counters and a condition. *)
Lemma valid_status_fields_witness :
  let fields :=
    [("conditions", json.Array
        [json.Object [("type", json.String "Healthy"); ("status", json.String "True");
                      ("reason", json.String "HealthyPackageRevision");
                      ("lastTransitionTime", json.String "2023-07-01T00:00:00Z")]]);
     ("foundDependencies", json.Number 2);
     ("installedDependencies", json.Number 2);
     ("invalidDependencies", json.Number 0)] in
  openapi.valid crd.status (json.Object fields) = true
  ∧ ∃ n, json.lookup "foundDependencies" fields = Some (json.Number n) ∧ go.is_int64 n.
Proof.
  cbv zeta.
  match goal with |- ?A ∧ _ => assert (Hvalid : A) by reflexivity end.
  split; [exact Hvalid|].
  destruct (proj1 (proj2 (valid_status_fields _ Hvalid)) "foundDependencies" (json.Number 2))
    as (n & Hn & Hrange); [repeat constructor|reflexivity|].
  exists n. split; [by rewrite Hn|exact Hrange].
Defined.


